(** * Masked Miners: the identity-emulation engine of [maskedminers.py]

    A shallow embedding of the classes [Browser], [Platform], [Environment]
    and of the header block of [MaskedMiner.__init__], with the properties
    of the specification stated and settled over it.

    Conventions.
    - A Python [str] is a [string]; each character is one code point below
      256 (identity strings and header names are HTTP header text).
    - A Python [int] is a [Z].
    - A raised exception is the [Raise] outcome of [result]; nothing in the
      embedded classes catches one, so a [Raise] always reaches the caller.
    - An attribute that has not been assigned is [None]; reading it raises
      [AttributeError].
    - A [dict] of headers is a [gmap string string].
    - The [random] module is a source of draws threaded through the code. *)

From Stdlib Require Import ZArith String Ascii List Lia DecimalString.
From Stdlib Require Import Sorting.Permutation.
From Stdlib Require Import DecimalPos DecimalZ.
From stdpp Require Import base option gmap strings.

Local Open Scope string_scope.
Local Open Scope Z_scope.

(** ** Outcomes *)

Inductive exn : Set := ValueError | IndexError | AttributeError.

Inductive result (A : Type) : Type :=
| Ok (a : A)
| Raise (e : exn).
Arguments Ok {A} a.
Arguments Raise {A} e.

Definition returns {A : Type} (r : result A) : Prop := exists a, r = Ok a.

Definition rbind {A B : Type} (r : result A) (f : A -> result B) : result B :=
  match r with
  | Ok a => f a
  | Raise e => Raise e
  end.

Declare Scope result_scope.
Delimit Scope result_scope with result.
Notation "'try!' x ':=' r 'in' k" := (rbind r (fun x => k))
  (at level 10, x pattern, r at level 100, k at level 200) : result_scope.

(** ** The Python builtins the module relies on *)

Module Py.

(** [len(s)] *)
Definition len (s : string) : Z := Z.of_nat (String.length s).

(** [s.startswith(p)] *)
Fixpoint startswith (p s : string) : bool :=
  match p, s with
  | EmptyString, _ => true
  | String _ _, EmptyString => false
  | String a p', String b s' => Ascii.eqb a b && startswith p' s'
  end.

(** [s.find(sub)]: the lowest index at which [sub] occurs, or [-1]. *)
Fixpoint find (sub s : string) : Z :=
  if startswith sub s then 0
  else match s with
       | EmptyString => -1
       | String _ s' => let i := find sub s' in if i <? 0 then -1 else i + 1
       end.

(** [sub in s] *)
Definition contains (sub s : string) : bool := 0 <=? find sub s.

Fixpoint drop (n : nat) (s : string) : string :=
  match n, s with
  | O, _ => s
  | S _, EmptyString => EmptyString
  | S n', String _ s' => drop n' s'
  end.

(** [s[n:]]; a negative [n] counts from the end of [s]. *)
Definition slice_from (n : Z) (s : string) : string :=
  if n <? 0 then drop (Z.to_nat (Z.max 0 (len s + n))) s
  else drop (Z.to_nat n) s.

(** The first occurrence of a non-empty [sep] cuts [s] in two. *)
Fixpoint partition (sep s : string) : option (string * string) :=
  if startswith sep s then Some (EmptyString, drop (String.length sep) s)
  else match s with
       | EmptyString => None
       | String c s' =>
           match partition sep s' with
           | Some (a, b) => Some (String c a, b)
           | None => None
           end
       end.

(** [s.split(sep, maxsplit)] for a non-empty [sep] and [maxsplit >= 0]. *)
Fixpoint split (sep : string) (maxsplit : nat) (s : string) : list string :=
  match maxsplit with
  | O => [s]
  | S n =>
      match partition sep s with
      | Some (a, b) => a :: split sep n b
      | None => [s]
      end
  end.

Fixpoint rev_string (acc s : string) : string :=
  match s with
  | EmptyString => acc
  | String c s' => rev_string (String c acc) s'
  end.

Definition reverse (s : string) : string := rev_string EmptyString s.

(** [s.rsplit(sep, maxsplit)]: the same cuts, found from the right. *)
Definition rsplit (sep : string) (maxsplit : nat) (s : string) : list string :=
  rev (map reverse (split (reverse sep) maxsplit (reverse s))).

Fixpoint lstrip (c : ascii) (s : string) : string :=
  match s with
  | EmptyString => EmptyString
  | String a s' => if Ascii.eqb a c then lstrip c s' else s
  end.

(** [s.strip(c)] for a one-character [c]. *)
Definition strip (c : ascii) (s : string) : string :=
  reverse (lstrip c (reverse (lstrip c s))).

(** [l[i]] for [i >= 0] *)
Definition index {A : Type} (l : list A) (i : nat) : result A :=
  match nth_error l i with
  | Some x => Ok x
  | None => Raise IndexError
  end.

(** [a, b = l] *)
Definition unpack2 {A : Type} (l : list A) : result (A * A) :=
  match l with
  | [a; b] => Ok (a, b)
  | _ => Raise ValueError
  end.

(** [sep.join(l)] *)
Fixpoint join (sep : string) (l : list string) : string :=
  match l with
  | [] => EmptyString
  | [x] => x
  | x :: l' => x +:+ sep +:+ join sep l'
  end.

(** [c.lower()] on one character *)
Definition lower_char (c : ascii) : ascii :=
  let n := nat_of_ascii c in
  if ((65 <=? n) && (n <=? 90))%nat
     || ((192 <=? n) && (n <=? 222) && negb (n =? 215))%nat
  then ascii_of_nat (n + 32) else c.

(** [s.lower()] *)
Fixpoint lower (s : string) : string :=
  match s with
  | EmptyString => EmptyString
  | String c s' => String (lower_char c) (lower s')
  end.

(** [str(n)] and the [{n}] of an f-string, for an [int] *)
Definition str (n : Z) : string := NilZero.string_of_int (Z.to_int n).

(** [int(b)] for a [bool] *)
Definition int_of_bool (b : bool) : Z := if b then 1 else 0.

(** *** [int(s)] in base ten

    Surrounding whitespace is skipped, one sign is allowed, then come
    decimal digits, two of which may be separated by a single underscore.
    Anything else, or more than [int_max_str_digits] digits, is a
    [ValueError]. *)

Definition is_space (c : ascii) : bool :=
  let n := nat_of_ascii c in
  (((9 <=? n) && (n <=? 13)) || (n =? 32) || (n =? 133) || (n =? 160))%nat.

Definition digit_value (c : ascii) : option Z :=
  let n := nat_of_ascii c in
  if ((48 <=? n) && (n <=? 57))%nat then Some (Z.of_nat n - 48) else None.

Definition int_max_str_digits : nat := 4300.

Fixpoint skip_spaces (s : string) : string :=
  match s with
  | EmptyString => EmptyString
  | String c s' => if is_space c then skip_spaces s' else s
  end.

Definition all_spaces (s : string) : bool :=
  match skip_spaces s with EmptyString => true | _ => false end.

(** The digits of [s] read left to right: [acc] is the value so far,
    [count] the digits seen, [prev] tells whether the last character was a
    digit. The digits end at the end of [s] or at trailing whitespace. *)
Fixpoint digits (acc : Z) (count : nat) (prev : bool) (s : string)
  : option (Z * nat) :=
  match s with
  | EmptyString => if prev then Some (acc, count) else None
  | String c s' =>
      match digit_value c with
      | Some d => digits (10 * acc + d) (S count) true s'
      | None =>
          if Ascii.eqb c "_" then
            if prev then digits acc count false s' else None
          else if prev && all_spaces s then Some (acc, count)
          else None
      end
  end.

Definition int (s : string) : result Z :=
  let s1 := skip_spaces s in
  let '(sign, s2) :=
    match s1 with
    | String "+" r => (1, r)
    | String "-" r => (-1, r)
    | _ => (1, s1)
    end in
  match digits 0 0 false s2 with
  | Some (v, count) =>
      if (count <=? int_max_str_digits)%nat then Ok (sign * v)
      else Raise ValueError
  | None => Raise ValueError
  end.

End Py.

(** ** Programs: a world of random draws and printed lines, and exceptions *)

(** The generator of the [random] module is an unbounded supply of raw
    draws; [stdout] collects the lines written by [print], oldest first. *)
Record world : Type := { rng : nat -> nat; stdout : list string }.

Definition prog (A : Type) : Type := world -> world * result A.

Definition ret {A : Type} (a : A) : prog A := fun w => (w, Ok a).

Definition bind {A B : Type} (m : prog A) (f : A -> prog B) : prog B :=
  fun w =>
    match m w with
    | (w', Ok a) => f a w'
    | (w', Raise e) => (w', Raise e)
    end.

(** A computation that can only return or raise. *)
Definition lift {A : Type} (r : result A) : prog A := fun w => (w, r).

Declare Scope prog_scope.
Delimit Scope prog_scope with prog.
Notation "'do!' x ':=' m 'in' k" := (bind m (fun x => k))
  (at level 10, x pattern, m at level 100, k at level 200) : prog_scope.

(** [str(sys.stderr)]: the text [print] writes for the standard error
    stream when the stream is handed to it as a value to be printed
    (CPython, with UTF-8 as the encoding of the stream). *)
Definition sys_stderr : string :=
  "<_io.TextIOWrapper name='<stderr>' mode='w' encoding='utf-8'>".

(** [print(a, b, ...)] without [file=]: the texts of the positional
    arguments, separated by one space, make one line of standard output. *)
Definition print (args : list string) : prog unit :=
  fun w =>
    ({| rng := rng w; stdout := stdout w ++ [Py.join " " args] |}, Ok tt).

Module Random.

(** The world once its next raw draw has been used. *)
Definition advance (w : world) : world :=
  {| rng := fun i => rng w (S i); stdout := stdout w |}.

(** The next raw draw, reduced to [0 .. n-1]. *)
Definition randbelow (n : nat) : prog nat :=
  fun w => (advance w, Ok (rng w O mod n)%nat).

(** [random.choice(seq)] *)
Definition choice (seq : list string) : prog string :=
  (do! i := randbelow (length seq) in lift (Py.index seq i))%prog.

(** [random.randint(a, b)] *)
Definition randint (a b : Z) : prog Z :=
  (do! i := randbelow (Z.to_nat (b - a + 1)) in ret (a + Z.of_nat i))%prog.

(** [x[i], x[j] = x[j], x[i]] *)
Definition swap {A : Type} (i j : nat) (x : list A) : list A :=
  match x !! i, x !! j with
  | Some a, Some b => <[j := a]> (<[i := b]> x)
  | _, _ => x
  end.

(** [random.shuffle(x)]: for [i] from [len(x) - 1] down to [1], exchange
    [x[i]] with [x[j]] for a drawn [j <= i]. *)
Fixpoint shuffle_from {A : Type} (i : nat) (x : list A) : prog (list A) :=
  match i with
  | O => ret x
  | S i' => (do! j := randbelow (S i) in shuffle_from i' (swap i j x))%prog
  end.

Definition shuffle {A : Type} (x : list A) : prog (list A) :=
  shuffle_from (length x - 1) x.

End Random.

(** ** class Browser *)

Module Browser.

Definition NONE : nat := 0.
Definition CHROME : nat := 1.
Definition EDGE : nat := 2.
Definition FIREFOX : nat := 3.
Definition OPERA : nat := 4.
Definition SAFARI : nat := 5.

Definition __brands : list (option string) :=
  [None; Some "Google Chrome"; Some "Microsoft Edge"; None; Some "Opera"; None].
Definition __keywords : list string :=
  [""; "Chrome"; "Edg"; "Firefox"; "OPR"; "Safari"].

Definition keyword (b : nat) : string := nth b __keywords "".
Definition brand (b : nat) : option string := nth b __brands None.

Record t : Type := {
  type : nat;
  version : Z;
  chromium_version : Z;
  branding : option string
}.

Definition set_type (b : nat) (self : t) : t :=
  {| type := b; version := version self;
     chromium_version := chromium_version self; branding := branding self |}.
Definition set_version (v : Z) (self : t) : t :=
  {| type := type self; version := v;
     chromium_version := chromium_version self; branding := branding self |}.
Definition set_chromium_version (v : Z) (self : t) : t :=
  {| type := type self; version := version self;
     chromium_version := v; branding := branding self |}.
Definition set_branding (s : string) (self : t) : t :=
  {| type := type self; version := version self;
     chromium_version := chromium_version self; branding := Some s |}.

(** [uses_chromium(self)] *)
Definition uses_chromium (self : t) : bool := 0 <=? chromium_version self.

(** [int(ua[i + len(k) + 1:].split('.', 1)[0])] *)
Definition version_at (ua k : string) (i : Z) : result Z :=
  (try! field := Py.index (Py.split "." 1 (Py.slice_from (i + Py.len k + 1) ua)) 0
   in Py.int field)%result.

(** The loop [for b in [Browser.EDGE, Browser.OPERA]] with its [break]. *)
Fixpoint brand_loop (bs : list nat) (ua : string) (self : t) : result t :=
  match bs with
  | [] => Ok self
  | b :: bs' =>
      let k := keyword b in
      let i := Py.find k ua in
      if 0 <=? i then
        (try! v := version_at ua k i in
         Ok (set_version v (set_type b self)))%result
      else brand_loop bs' ua self
  end.

(** The part of [__init__] that determines the browser. *)
Definition detect (ua : string) : result t :=
  let self := {| type := NONE; version := -1; chromium_version := -1;
                 branding := None |} in
  let k := keyword FIREFOX in
  let i := Py.find k ua in
  if 0 <=? i then
    (try! v := version_at ua k i in
     Ok (set_version v (set_type FIREFOX self)))%result
  else
    (try! self := brand_loop [EDGE; OPERA] ua self in
     let k := keyword CHROME in
     let i := Py.find k ua in
     if 0 <=? i then
       try! v := version_at ua k i in
       let self := set_chromium_version v self in
       if (type self =? NONE)%nat then
         Ok (set_version (chromium_version self) (set_type CHROME self))
       else Ok self
     else
       let k := keyword SAFARI in
       let i := Py.find k ua in
       if 0 <=? i then
         try! v := version_at ua k i in
         Ok (set_version v (set_type SAFARI self))
       else Ok self)%result.

Definition dquote : string := String (ascii_of_nat 34) EmptyString.

(** The label of a brand inside an f-string: [None] prints as its name. *)
Definition label (o : option string) : string :=
  match o with Some s => s | None => "None" end.

(** [f'"{brand[0]}"; v="{brand[1]}"'] *)
Definition entry (brand : string * Z) : string :=
  dquote +:+ fst brand +:+ dquote +:+ "; v=" +:+ dquote
    +:+ Py.str (snd brand) +:+ dquote.

Definition misc : list string := [""; " "; "_"; ";"; "("; ")"].

(** The part of [__init__] that sets the branding data. *)
Definition brand_self (self : t) : prog t :=
  if uses_chromium self then
    (do! c1 := Random.choice misc in
     do! c2 := Random.choice misc in
     do! c3 := Random.choice misc in
     let fake_brand := c1 +:+ "Not" +:+ c2 +:+ "A" +:+ c3 +:+ "Brand" in
     do! fake_version := Random.randint 1 100 in
     let brands := [ (fake_brand, fake_version);
                     (label (brand (type self)), version self);
                     ("Chromium", chromium_version self) ] in
     do! brands := Random.shuffle brands in
     ret (set_branding (Py.join ", " (map entry brands)) self))%prog
  else ret (set_branding "" self).

(** [Browser(ua)] *)
Definition __init__ (ua : string) : prog t :=
  (do! self := lift (detect ua) in brand_self self)%prog.

End Browser.

(** ** class Platform *)

Module Platform.

Record t : Type := {
  type : option string;
  os : option string;
  os_version : option string;
  is_mobile : option bool
}.

(** The object before [__init__] has assigned anything. *)
Definition blank : t :=
  {| type := None; os := None; os_version := None; is_mobile := None |}.

Definition set_type (s : string) (self : t) : t :=
  {| type := Some s; os := os self; os_version := os_version self;
     is_mobile := is_mobile self |}.
Definition set_os (s : string) (self : t) : t :=
  {| type := type self; os := Some s; os_version := os_version self;
     is_mobile := is_mobile self |}.
Definition set_os_version (s : string) (self : t) : t :=
  {| type := type self; os := os self; os_version := Some s;
     is_mobile := is_mobile self |}.
Definition set_is_mobile (b : bool) (self : t) : t :=
  {| type := type self; os := os self; os_version := os_version self;
     is_mobile := Some b |}.

(** [ua.split('(', 1)[1].split(')', 1)[0]] *)
Definition system_info_of (ua : string) : result string :=
  (try! rest := Py.index (Py.split "(" 1 ua) 1 in
   Py.index (Py.split ")" 1 rest) 0)%result.

Definition unparseable (system_info : string) : string :=
  "System info section of user-agent cannot be parsed! ("
    +:+ system_info +:+ ")".

Definition empty_message : string := "The user-agent is empty!".

(** [Platform(ua)] *)
Definition __init__ (ua : string) : prog t :=
  let self := set_os_version "" (set_os "" blank) in
  if 0 <? Py.len ua then
    let self := set_is_mobile false self in
    (do! system_info := lift (system_info_of ua) in
     if Py.contains "Windows" system_info then
       do! ty := lift (Py.index (Py.split ";" 1 system_info) 0) in
       let self := set_type ty self in
       do! (a, b) := lift (Py.unpack2 (Py.split " " 1 system_info)) in
       ret (set_os_version b (set_os a self))
     else if Py.contains "Macintosh" system_info then
       let self := set_type "Macintosh" self in
       do! rest := lift (Py.index (Py.split "; " 1 system_info) 1) in
       do! (a, b) := lift (Py.unpack2 (Py.rsplit " " 1 rest)) in
       ret (set_os_version b (set_os a self))
     else if Py.contains "X11" system_info then
       let self := set_type "Linux" self in
       do! word := lift (Py.index (Py.split " " 2 system_info) 1) in
       ret (set_os (Py.strip ";" word) self)
     else
       do! _ := print [unparseable system_info; sys_stderr] in
       do! ty := lift (Py.index (Py.split " " 1 ua) 0) in
       ret (set_type ty self))%prog
  else
    (do! _ := print [empty_message; sys_stderr] in ret self)%prog.

End Platform.

(** ** class Environment *)

Module Environment.

Record t : Type := {
  ua : string;
  browser : Browser.t;
  platform : Platform.t
}.

(** The "Set fields" part of [Environment()], for the identity string [ua]
    that [random.choices] has drawn from the loaded user-agents. *)
Definition __init__ (ua : string) : prog t :=
  (do! browser := Browser.__init__ ua in
   do! platform := Platform.__init__ ua in
   ret {| ua := ua; browser := browser; platform := platform |})%prog.

End Environment.

(** ** class MaskedMiner: the headers *)

Module MaskedMiner.

(** Reading an attribute of an object. *)
Definition getattr {A : Type} (o : option A) : result A :=
  match o with
  | Some a => Ok a
  | None => Raise AttributeError
  end.

(** [headers.setdefault(k, v)] *)
Definition setdefault (k v : string) (headers : gmap string string)
  : gmap string string :=
  match headers !! k with
  | Some _ => headers
  | None => <[k := v]> headers
  end.

Definition is_sec (header : string) : bool :=
  Py.startswith "sec-" (Py.lower header).

(** The loop [for header in list(headers.keys())] with its [del]. *)
Fixpoint strip_sec (keys : list string) (headers : gmap string string)
  : gmap string string :=
  match keys with
  | [] => headers
  | header :: keys' =>
      strip_sec keys'
        (if is_sec header then delete header headers else headers)
  end.

(** [list(headers.keys())] *)
Definition keys (headers : gmap string string) : list string :=
  map fst (map_to_list headers).

(** The "Headers" part of [MaskedMiner.__init__]. *)
Definition mask_headers (environment : Environment.t)
    (headers : gmap string string) : result (gmap string string) :=
  let headers := setdefault "accept-language" "en-US,en;q=0.9" headers in
  let headers := setdefault "dnt" "1" headers in
  let headers := setdefault "user-agent" (Environment.ua environment) headers in
  if Browser.uses_chromium (Environment.browser environment) then
    (try! branding :=
       getattr (Browser.branding (Environment.browser environment)) in
     let headers := setdefault "sec-ch-ua" branding headers in
     try! is_mobile :=
       getattr (Platform.is_mobile (Environment.platform environment)) in
     let headers :=
       setdefault "sec-ch-ua-mobile"
         ("?" +:+ Py.str (Py.int_of_bool is_mobile)) headers in
     try! ty := getattr (Platform.type (Environment.platform environment)) in
     let headers :=
       setdefault "sec-ch-ua-platform"
         (Browser.dquote +:+ ty +:+ Browser.dquote) headers in
     Ok headers)%result
  else Ok (strip_sec (keys headers) headers).

End MaskedMiner.

(** * Vocabulary of the properties *)

(** The string [s] contains the token [k]. *)
Definition occurs (k s : string) : Prop :=
  exists pre post, s = pre +:+ k +:+ post.

(** The version field that follows the first occurrence of the token [k]. *)
Definition field (ua k : string) : result Z :=
  Browser.version_at ua k (Py.find k ua).

(** The tokens whose version field [Browser.__init__] reads, in order. *)
Definition examined (ua : string) : list string :=
  if Py.contains "Firefox" ua then ["Firefox"]
  else
    (if Py.contains "Edg" ua then ["Edg"]
     else if Py.contains "OPR" ua then ["OPR"] else [])
    ++ (if Py.contains "Chrome" ua then ["Chrome"]
        else if Py.contains "Safari" ua then ["Safari"] else []).

(** A browser of family [b] with version [v] and Chromium version [c],
    before its branding is set. *)
Definition facts (b : nat) (v c : Z) : Browser.t :=
  {| Browser.type := b; Browser.version := v;
     Browser.chromium_version := c; Browser.branding := None |}.

(** The headers once the three keys of every session have their default. *)
Definition base_headers (ua : string) (h : gmap string string)
  : gmap string string :=
  MaskedMiner.setdefault "user-agent" ua
    (MaskedMiner.setdefault "dnt" "1"
       (MaskedMiner.setdefault "accept-language" "en-US,en;q=0.9" h)).

(** The headers of a Chromium session. *)
Definition chromium_headers (branding ty : string) (h : gmap string string)
  : gmap string string :=
  MaskedMiner.setdefault "sec-ch-ua-platform"
    (Browser.dquote +:+ ty +:+ Browser.dquote)
    (MaskedMiner.setdefault "sec-ch-ua-mobile" "?0"
       (MaskedMiner.setdefault "sec-ch-ua" branding h)).

(** A world whose draws are all zero and where nothing has been printed. *)
Definition quiet : world := {| rng := fun _ => O; stdout := [] |}.

(** The object a program returns, or [d] when it raises. *)
Definition value {A : Type} (d : A) (r : world * result A) : A :=
  match snd r with
  | Ok a => a
  | Raise _ => d
  end.

(** The session of [ua] in the world [quiet]. *)
Definition session (ua : string) : Environment.t :=
  value {| Environment.ua := ""; Environment.browser := facts 0 0 0;
           Environment.platform := Platform.blank |}
    (Environment.__init__ ua quiet).

(** The tokens by which a browser family is recognised. *)
Definition family_tokens : list string :=
  ["Chrome"; "Edg"; "Firefox"; "OPR"; "Safari"].

(** Identity strings used as examples. *)
Definition edge_ua : string :=
  "Mozilla/5.0 (Windows NT 10.0; Win64; x64) AppleWebKit/537.36 Chrome/119.0.0.0 Safari/537.36 Edg/119.0.2151.58".

Definition edge_only_ua : string :=
  "Mozilla/5.0 (Windows NT 10.0; Win64; x64) Edg/119.0.2151.58".

Definition edge_safari_ua : string :=
  "Mozilla/5.0 (Windows NT 10.0; Win64; x64) AppleWebKit/605.1.15 Safari/605.1.15 Edg/119.0.2151.58".

Definition msie_ua : string :=
  "Mozilla/4.0 (compatible; MSIE 8.0; Windows NT 6.1; Trident/4.0)".

Definition firefox_ua : string :=
  "Mozilla/5.0 (Windows NT 10.0; Win64; x64; rv:109.0) Gecko/20100101 Firefox/120.0".

Definition firefox_beta_ua : string :=
  "Mozilla/5.0 (X11; Linux x86_64; rv:109.0) Gecko/20100101 Firefox/beta".

Definition curl_ua : string := "curl/8.4.0".

Definition beos_ua : string := "NetPositive/2.2 (BeOS; I) x".

(** ** The constructors of the miners and their default headers

    A default argument [headers:dict = {}] is one dict, made when the
    function is defined and used by every call that passes no headers. The
    three [__init__] functions have one such dict each. *)

Module Miners.

Record defaults : Type := {
  miner_default : gmap string string;
  json_default : gmap string string;
  lxml_default : gmap string string
}.

(** The defaults as the module is loaded. *)
Definition fresh : defaults :=
  {| miner_default := ∅; json_default := ∅; lxml_default := ∅ |}.

(** The "Headers" part of [MaskedMiner.__init__] as it acts on the dict it
    is given: the content of that dict afterwards, and the outcome. *)
Definition headers_block (environment : Environment.t)
    (headers : gmap string string) : gmap string string * result unit :=
  let headers :=
    MaskedMiner.setdefault "accept-language" "en-US,en;q=0.9" headers in
  let headers := MaskedMiner.setdefault "dnt" "1" headers in
  let headers :=
    MaskedMiner.setdefault "user-agent" (Environment.ua environment) headers in
  if Browser.uses_chromium (Environment.browser environment) then
    match MaskedMiner.getattr
            (Browser.branding (Environment.browser environment)) with
    | Raise e => (headers, Raise e)
    | Ok branding =>
        let headers := MaskedMiner.setdefault "sec-ch-ua" branding headers in
        match MaskedMiner.getattr
                (Platform.is_mobile (Environment.platform environment)) with
        | Raise e => (headers, Raise e)
        | Ok is_mobile =>
            let headers :=
              MaskedMiner.setdefault "sec-ch-ua-mobile"
                ("?" +:+ Py.str (Py.int_of_bool is_mobile)) headers in
            match MaskedMiner.getattr
                    (Platform.type (Environment.platform environment)) with
            | Raise e => (headers, Raise e)
            | Ok ty =>
                (MaskedMiner.setdefault "sec-ch-ua-platform"
                   (Browser.dquote +:+ ty +:+ Browser.dquote) headers,
                 Ok tt)
            end
        end
    end
  else
    (MaskedMiner.strip_sec (MaskedMiner.keys headers) headers, Ok tt).

(** [MaskedMiner(url, headers, ..., environment)], up to the call of
    [Miner.__init__]: the content of the dict handed to it, the defaults
    afterwards, and the outcome. [None] is a call without [headers]. *)
Definition MaskedMiner_init (environment : Environment.t)
    (headers : option (gmap string string)) (d : defaults)
  : gmap string string * defaults * result unit :=
  match headers with
  | Some h =>
      let '(h', r) := headers_block environment h in (h', d, r)
  | None =>
      let '(h', r) := headers_block environment (miner_default d) in
      (h', {| miner_default := h'; json_default := json_default d;
              lxml_default := lxml_default d |}, r)
  end.

(** The two [setdefault] calls of [MaskedMinerJSON.__init__]. *)
Definition json_accept (headers : gmap string string) : gmap string string :=
  MaskedMiner.setdefault "accept-encoding" "gzip, deflate, br"
    (MaskedMiner.setdefault "accept" "application/json" headers).

(** The two [setdefault] calls of [MaskedMinerLXML.__init__]. *)
Definition lxml_accept (headers : gmap string string) : gmap string string :=
  MaskedMiner.setdefault "accept-encoding" "gzip, deflate, br"
    (MaskedMiner.setdefault "accept" "text/html" headers).

(** [MaskedMinerJSON(url, headers, ..., environment)]: its own default
    dict, then [MaskedMiner.__init__] on the same dict. *)
Definition MaskedMinerJSON_init (environment : Environment.t)
    (headers : option (gmap string string)) (d : defaults)
  : gmap string string * defaults * result unit :=
  match headers with
  | Some h =>
      let '(h', r) := headers_block environment (json_accept h) in (h', d, r)
  | None =>
      let '(h', r) :=
        headers_block environment (json_accept (json_default d)) in
      (h', {| miner_default := miner_default d; json_default := h';
              lxml_default := lxml_default d |}, r)
  end.

(** [MaskedMinerLXML(url, headers, ..., environment)] *)
Definition MaskedMinerLXML_init (environment : Environment.t)
    (headers : option (gmap string string)) (d : defaults)
  : gmap string string * defaults * result unit :=
  match headers with
  | Some h =>
      let '(h', r) := headers_block environment (lxml_accept h) in (h', d, r)
  | None =>
      let '(h', r) :=
        headers_block environment (lxml_accept (lxml_default d)) in
      (h', {| miner_default := miner_default d;
              json_default := json_default d; lxml_default := h' |}, r)
  end.

End Miners.

(** ** class UserAgentMiner: reading a chunked response

    The miner is a list of what it has mined ([self.append]) and knows the
    name of the file it updates; the files and the standard error stream
    are the state it acts on. *)

Module UserAgentMiner.

Record t : Type := { filename : string; items : list string }.

Record io : Type := { files : gmap string string; stderr : list string }.

Inductive outcome : Set := Returned | NotImplementedError.

(** [self.append(json_str)] *)
Definition append (json_str : string) (self : t) : t :=
  {| filename := filename self; items := items self ++ [json_str] |}.

(** [write(self, json_str)]: the file is opened for writing and receives
    [json_str]. *)
Definition write (self : t) (json_str : string) (st : io) : io :=
  {| files := <[filename self := json_str]> (files st);
     stderr := stderr st |}.

(** The expression inside the [try] of [handle_chunked]. *)
Definition pick (data_str : string) : result string :=
  (try! a := Py.index (Py.split "<h3>JSON</h3>" 1 data_str) 1 in
   try! b := Py.index (Py.split "<textarea" 1 a) 1 in
   try! c := Py.index (Py.split ">" 1 b) 1 in
   Py.index (Py.split "</textarea>" 1 c) 0)%result.

(** [handle_chunked(self, data)] from the decoded text [data_str] on. *)
Definition handle_chunked (self : t) (data_str : string) (st : io)
  : t * io * outcome :=
  match pick data_str with
  | Ok json_str => (append json_str self, write self json_str st, Returned)
  | Raise _ =>
      (self,
       {| files := files st;
          stderr := stderr st ++ ["Unfamiliar response data: " +:+ data_str] |},
       NotImplementedError)
  end.

End UserAgentMiner.

(** * Vocabulary of the further properties *)

(** The family that the tokens present in [ua] decide. *)
Definition family_of (ua : string) : nat :=
  if Py.contains "Firefox" ua then Browser.FIREFOX
  else if Py.contains "Chrome" ua then
    if Py.contains "Edg" ua then Browser.EDGE
    else if Py.contains "OPR" ua then Browser.OPERA
    else Browser.CHROME
  else if Py.contains "Safari" ua then Browser.SAFARI
  else if Py.contains "Edg" ua then Browser.EDGE
  else if Py.contains "OPR" ua then Browser.OPERA
  else Browser.NONE.

(** The text of [s] before the first [sep], or all of [s] without one. *)
Definition before (sep s : string) : string :=
  match Py.partition sep s with
  | Some (a, _) => a
  | None => s
  end.

(** The identity strings on which [Platform.__init__] returns. *)
Definition platform_ok (ua : string) : Prop :=
  ua = ""
  \/ exists info,
       Platform.system_info_of ua = Ok info
       /\ if Py.contains "Windows" info then occurs " " info
          else if Py.contains "Macintosh" info then
            exists a rest,
              Py.partition "; " info = Some (a, rest) /\ occurs " " rest
          else if Py.contains "X11" info then occurs " " info
          else True.

(** Further identity strings used as examples. *)
Definition windows_ua : string := "Mozilla/5.0 (Windows) Gecko".
Definition mac_ua : string :=
  "Mozilla/5.0 (Macintosh; Intel Mac OS X 10_15_7) AppleWebKit/605.1.15".
Definition linux_ua : string :=
  "Mozilla/5.0 (X11; Ubuntu; Linux x86_64; rv:109.0) Gecko/20100101".

(** The keys that the header block sets by default. *)
Definition policy_keys (chromium : bool) : list string :=
  ["accept-language"; "dnt"; "user-agent"]
  ++ (if chromium
      then ["sec-ch-ua"; "sec-ch-ua-mobile"; "sec-ch-ua-platform"]
      else []).

(** The markers that [handle_chunked] looks for. *)
Definition json_heading : string := "<h3>JSON</h3>".
Definition textarea_open : string := "<textarea".
Definition textarea_close : string := "</textarea>".

(** The number that the decimal digits [d] denote after the digits that
    gave [acc]. *)
Fixpoint uint_value (acc : Z) (d : Decimal.uint) : Z :=
  match d with
  | Decimal.Nil => acc
  | Decimal.D0 l => uint_value (10 * acc + 0) l
  | Decimal.D1 l => uint_value (10 * acc + 1) l
  | Decimal.D2 l => uint_value (10 * acc + 2) l
  | Decimal.D3 l => uint_value (10 * acc + 3) l
  | Decimal.D4 l => uint_value (10 * acc + 4) l
  | Decimal.D5 l => uint_value (10 * acc + 5) l
  | Decimal.D6 l => uint_value (10 * acc + 6) l
  | Decimal.D7 l => uint_value (10 * acc + 7) l
  | Decimal.D8 l => uint_value (10 * acc + 8) l
  | Decimal.D9 l => uint_value (10 * acc + 9) l
  end.

(** The separator [sep] occurs in [pre +:+ sep] only at its end. *)
Definition first_at (sep pre : string) : Prop :=
  forall u v, pre +:+ sep = u +:+ sep +:+ v -> v = "".

(** A chunked page with the JSON text in its text area. *)
Definition chunked_page : string :=
  "<div><h3>CSV</h3><textarea>a,b</textarea></div><div><h3>JSON</h3><textarea class=x>[{}]</textarea></div>".

(** * Properties *)

(** ** Strings *)

Lemma startswith_iff p s :
  Py.startswith p s = true <-> exists r, s = p +:+ r.
Proof.
  revert s. induction p as [|a p IH]; intros s.
  - simpl. split; [intros _; exists s; reflexivity | reflexivity].
  - destruct s as [|b s]; simpl.
    + split; [discriminate | intros [r Hr]; discriminate].
    + rewrite andb_true_iff, Ascii.eqb_eq, IH. split.
      * intros [-> [r ->]]. exists r. reflexivity.
      * intros [r Hr]. injection Hr as -> ->. eauto.
Qed.

Lemma find_unfold k s :
  Py.find k s =
  if Py.startswith k s then 0
  else match s with
       | EmptyString => -1
       | String _ s' =>
           let i := Py.find k s' in if i <? 0 then -1 else i + 1
       end.
Proof. destruct s; reflexivity. Qed.

Lemma find_range k s : Py.find k s = -1 \/ 0 <= Py.find k s.
Proof.
  induction s as [|c s IH]; rewrite find_unfold;
    destruct (Py.startswith k _); try lia.
  cbv zeta. destruct (Z.ltb_spec (Py.find k s) 0); lia.
Qed.

Lemma find_occurs k s : 0 <= Py.find k s <-> occurs k s.
Proof.
  induction s as [|c s IH]; rewrite find_unfold;
    destruct (Py.startswith k _) eqn:E.
  - split; [intros _ | lia].
    apply startswith_iff in E as [r Hr]. exists EmptyString, r. exact Hr.
  - split; [lia |]. intros (pre & post & H).
    destruct pre; [| discriminate].
    assert (Py.startswith k EmptyString = true) by (apply startswith_iff; eauto).
    congruence.
  - split; [intros _ | lia].
    apply startswith_iff in E as [r Hr]. exists EmptyString, r. exact Hr.
  - cbv zeta. destruct (Z.ltb_spec (Py.find k s) 0) as [Hlt | Hge].
    + split; [lia |]. intros (pre & post & H). destruct pre as [|a pre].
      * assert (Py.startswith k (String c s) = true)
          by (apply startswith_iff; eauto).
        congruence.
      * injection H as _ H.
        assert (occurs k s) as Ho by (exists pre, post; exact H).
        apply IH in Ho. lia.
    + split; [intros _ | lia].
      apply IH in Hge as (pre & post & ->).
      exists (String c pre), post. reflexivity.
Qed.

Lemma contains_occurs k s : Py.contains k s = true <-> occurs k s.
Proof. unfold Py.contains. rewrite Z.leb_le. apply find_occurs. Qed.

Lemma not_occurs_contains k s : ~ occurs k s -> Py.contains k s = false.
Proof.
  intros H. destruct (Py.contains k s) eqn:E; [| reflexivity].
  apply contains_occurs in E. contradiction.
Qed.

Lemma startswith_drop sep s :
  Py.startswith sep s = true -> s = sep +:+ Py.drop (String.length sep) s.
Proof.
  revert s. induction sep as [|a sep IH]; intros s; [reflexivity |].
  destruct s as [|b s]; simpl; [discriminate |].
  rewrite andb_true_iff, Ascii.eqb_eq. intros [-> H].
  change (String b s = String b (sep +:+ Py.drop (String.length sep) s)).
  f_equal. apply IH, H.
Qed.

(** [partition] cuts at an occurrence of the separator. *)
Lemma partition_append sep s a b :
  Py.partition sep s = Some (a, b) -> s = a +:+ sep +:+ b.
Proof.
  revert a. induction s as [|c s IH]; intros a; simpl;
    destruct (Py.startswith sep _) eqn:E.
  - intros H. injection H as <- <-. apply startswith_drop, E.
  - discriminate.
  - intros H. injection H as <- <-. apply startswith_drop, E.
  - destruct (Py.partition sep s) as [[a' b'] |]; [| discriminate].
    intros H. injection H as <- <-.
    change (String c s = String c (a' +:+ sep +:+ b')).
    f_equal. apply IH. reflexivity.
Qed.

(** ** Programs and random draws *)

Lemma bind_ok {A B : Type} (m : prog A) (f : A -> prog B) w w' a :
  m w = (w', Ok a) -> bind m f w = f a w'.
Proof. intros H. unfold bind. rewrite H. reflexivity. Qed.

Lemma bind_inv {A B : Type} (m : prog A) (f : A -> prog B) w w2 b :
  bind m f w = (w2, Ok b) ->
  exists w1 a, m w = (w1, Ok a) /\ f a w1 = (w2, Ok b).
Proof.
  unfold bind. destruct (m w) as [w1 [a | e]]; [eauto | discriminate].
Qed.

Lemma randbelow_spec n w :
  (0 < n)%nat ->
  exists i, (i < n)%nat /\ Random.randbelow n w = (Random.advance w, Ok i).
Proof.
  intros Hn. exists (rng w O mod n)%nat. split; [| reflexivity].
  apply Nat.mod_upper_bound. lia.
Qed.

Lemma choice_spec (seq : list string) w :
  seq <> [] ->
  exists c, In c seq /\ Random.choice seq w = (Random.advance w, Ok c).
Proof.
  intros Hne.
  destruct (randbelow_spec (length seq) w) as (i & Hi & E).
  { destruct seq; [congruence | simpl; lia]. }
  destruct (nth_error seq i) as [c |] eqn:Hc.
  - exists c. split; [eapply nth_error_In; eauto |].
    unfold Random.choice. rewrite (bind_ok _ _ _ _ _ E).
    unfold lift, Py.index. rewrite Hc. reflexivity.
  - apply nth_error_None in Hc. lia.
Qed.

Lemma randint_spec a b w :
  a <= b ->
  exists v, a <= v <= b /\ Random.randint a b w = (Random.advance w, Ok v).
Proof.
  intros Hab.
  destruct (randbelow_spec (Z.to_nat (b - a + 1)) w) as (i & Hi & E); [lia |].
  exists (a + Z.of_nat i). split; [lia |].
  unfold Random.randint. rewrite (bind_ok _ _ _ _ _ E). reflexivity.
Qed.

Lemma insert_head_perm {A : Type} (l : list A) j a b :
  l !! j = Some b -> Permutation (b :: <[j := a]> l) (a :: l).
Proof.
  revert j. induction l as [|h t IH]; intros [|j] H; simpl in *;
    try discriminate.
  - injection H as ->. apply perm_swap.
  - rewrite perm_swap, (IH j H). apply perm_swap.
Qed.

Lemma swap_perm {A : Type} i j (x : list A) :
  Permutation (Random.swap i j x) x.
Proof.
  unfold Random.swap.
  destruct (x !! i) as [a |] eqn:Hi; [| reflexivity].
  destruct (x !! j) as [b |] eqn:Hj; [| reflexivity].
  revert i j Hi Hj. induction x as [|h t IH]; intros [|i] [|j] Hi Hj;
    simpl in *; try discriminate.
  - injection Hi as ->. reflexivity.
  - injection Hi as ->. apply insert_head_perm, Hj.
  - injection Hj as ->. apply insert_head_perm, Hi.
  - apply perm_skip, IH; assumption.
Qed.

Lemma shuffle_from_spec {A : Type} i (x : list A) w :
  exists w' y,
    Random.shuffle_from i x w = (w', Ok y) /\ Permutation y x
    /\ stdout w' = stdout w.
Proof.
  revert x w. induction i as [|i IH]; intros x w.
  - exists w, x. repeat split; reflexivity.
  - destruct (randbelow_spec (S (S i)) w) as (j & _ & E); [lia |].
    destruct (IH (Random.swap (S i) j x) (Random.advance w))
      as (w' & y & E' & Hp & Ho).
    exists w', y. split; [| split].
    + simpl. rewrite (bind_ok _ _ _ _ _ E). exact E'.
    + rewrite Hp. apply swap_perm.
    + exact Ho.
Qed.

(** ** Browser: what [__init__] assigns *)

Lemma detect_eq ua :
  Browser.detect ua =
  if Py.contains "Firefox" ua then
    rbind (field ua "Firefox") (fun v => Ok (facts Browser.FIREFOX v (-1)))
  else
    rbind
      (if Py.contains "Edg" ua then
         rbind (field ua "Edg") (fun v => Ok (facts Browser.EDGE v (-1)))
       else if Py.contains "OPR" ua then
         rbind (field ua "OPR") (fun v => Ok (facts Browser.OPERA v (-1)))
       else Ok (facts Browser.NONE (-1) (-1)))
      (fun self =>
         if Py.contains "Chrome" ua then
           rbind (field ua "Chrome") (fun v =>
             let self := Browser.set_chromium_version v self in
             if (Browser.type self =? Browser.NONE)%nat
             then Ok (Browser.set_version (Browser.chromium_version self)
                        (Browser.set_type Browser.CHROME self))
             else Ok self)
         else if Py.contains "Safari" ua then
           rbind (field ua "Safari") (fun v =>
             Ok (Browser.set_version v
                   (Browser.set_type Browser.SAFARI self)))
         else Ok self).
Proof. reflexivity. Qed.

Lemma int_raise s e : Py.int s = Raise e -> e = ValueError.
Proof.
  unfold Py.int.
  destruct (match Py.skip_spaces s with
            | String "+" r => (1, r)
            | String "-" r => (-1, r)
            | _ => (1, Py.skip_spaces s)
            end) as [sign s2].
  destruct (Py.digits 0 0 false s2) as [[v count] |]; [| congruence].
  destruct (count <=? Py.int_max_str_digits)%nat; congruence.
Qed.

Lemma split_head sep n s : exists a l, Py.split sep n s = a :: l.
Proof.
  destruct n as [|n]; simpl; [eauto |].
  destruct (Py.partition sep s) as [[a b] |]; eauto.
Qed.

Lemma version_at_raise ua k i e :
  Browser.version_at ua k i = Raise e -> e = ValueError.
Proof.
  unfold Browser.version_at.
  destruct (split_head "." 1 (Py.slice_from (i + Py.len k + 1) ua))
    as (a & l & ->).
  simpl. apply int_raise.
Qed.

(** Case analysis over the tokens present and the outcome of each field. *)
Ltac detect_cases ua :=
  rewrite ?detect_eq; unfold examined;
  repeat match goal with
    | |- context [Py.contains ?k ua] => destruct (Py.contains k ua) eqn:?
    end;
  repeat match goal with
    | |- context [field ua ?k] => destruct (field ua k) eqn:?
    end;
  cbn [rbind facts Nat.eqb app
       Browser.set_type Browser.set_version Browser.set_chromium_version
       Browser.type Browser.version Browser.chromium_version Browser.branding
       Browser.NONE Browser.CHROME Browser.EDGE Browser.FIREFOX Browser.OPERA
       Browser.SAFARI] in *.

Lemma brand_self_other self w :
  Browser.uses_chromium self = false ->
  Browser.brand_self self w = (w, Ok (Browser.set_branding "" self)).
Proof. intros H. unfold Browser.brand_self. rewrite H. reflexivity. Qed.

Lemma misc_nonempty : Browser.misc <> [].
Proof. discriminate. Qed.

Lemma brand_self_chromium self w :
  Browser.uses_chromium self = true ->
  exists w' c1 c2 c3 fake_version brands,
    In c1 Browser.misc /\ In c2 Browser.misc /\ In c3 Browser.misc
    /\ 1 <= fake_version <= 100
    /\ Permutation brands
         [ (c1 +:+ "Not" +:+ c2 +:+ "A" +:+ c3 +:+ "Brand", fake_version);
           (Browser.label (Browser.brand (Browser.type self)),
            Browser.version self);
           ("Chromium", Browser.chromium_version self) ]
    /\ stdout w' = stdout w
    /\ Browser.brand_self self w =
       (w', Ok (Browser.set_branding
                  (Py.join ", " (map Browser.entry brands)) self)).
Proof.
  intros H. unfold Browser.brand_self. rewrite H.
  destruct (choice_spec Browser.misc w misc_nonempty) as (c1 & H1 & E1).
  destruct (choice_spec Browser.misc (Random.advance w) misc_nonempty)
    as (c2 & H2 & E2).
  destruct (choice_spec Browser.misc (Random.advance (Random.advance w))
              misc_nonempty) as (c3 & H3 & E3).
  destruct (randint_spec 1 100
              (Random.advance (Random.advance (Random.advance w))))
    as (fv & Hfv & E4); [lia |].
  set (l := [ (c1 +:+ "Not" +:+ c2 +:+ "A" +:+ c3 +:+ "Brand", fv);
              (Browser.label (Browser.brand (Browser.type self)),
               Browser.version self);
              ("Chromium", Browser.chromium_version self) ]).
  destruct (shuffle_from_spec (length l - 1) l
              (Random.advance (Random.advance (Random.advance
                 (Random.advance w)))))
    as (w' & brands & E5 & Hp & Ho).
  exists w', c1, c2, c3, fv, brands.
  split; [exact H1 |]. split; [exact H2 |]. split; [exact H3 |].
  split; [exact Hfv |]. split; [exact Hp |]. split; [exact Ho |].
  rewrite (bind_ok _ _ _ _ _ E1), (bind_ok _ _ _ _ _ E2),
    (bind_ok _ _ _ _ _ E3), (bind_ok _ _ _ _ _ E4).
  fold l. unfold Random.shuffle. rewrite (bind_ok _ _ _ _ _ E5).
  reflexivity.
Qed.

Lemma brand_self_total self w :
  exists w' s,
    Browser.brand_self self w = (w', Ok (Browser.set_branding s self))
    /\ stdout w' = stdout w.
Proof.
  destruct (Browser.uses_chromium self) eqn:H.
  - destruct (brand_self_chromium self w H)
      as (w' & c1 & c2 & c3 & fv & brands & _ & _ & _ & _ & _ & Ho & E).
    eauto.
  - exists w, "". split; [apply brand_self_other, H | reflexivity].
Qed.

Lemma init_ok ua self w :
  Browser.detect ua = Ok self ->
  exists w' s,
    Browser.__init__ ua w = (w', Ok (Browser.set_branding s self))
    /\ stdout w' = stdout w.
Proof.
  intros D. destruct (brand_self_total self w) as (w' & s & E & Ho).
  exists w', s. split; [| exact Ho].
  unfold Browser.__init__, bind, lift. rewrite D. exact E.
Qed.

Lemma init_raise ua e w :
  Browser.detect ua = Raise e -> Browser.__init__ ua w = (w, Raise e).
Proof. intros D. unfold Browser.__init__, bind, lift. rewrite D. reflexivity. Qed.

Lemma init_inv ua w w' b :
  Browser.__init__ ua w = (w', Ok b) ->
  exists self s,
    Browser.detect ua = Ok self /\ b = Browser.set_branding s self
    /\ Browser.brand_self self w = (w', Ok b).
Proof.
  intros E. apply bind_inv in E as (w1 & self & D & E).
  unfold lift in D. injection D as <- D.
  destruct (brand_self_total self w) as (w2 & s & E2 & _).
  exists self, s. split; [exact D |]. split; [congruence | exact E].
Qed.

Ltac family_facts :=
  unfold Browser.NONE, Browser.CHROME, Browser.EDGE, Browser.FIREFOX,
    Browser.OPERA, Browser.SAFARI in *.

Lemma detect_outcome ua :
  (exists self,
      Browser.detect ua = Ok self
      /\ forall k, In k (examined ua) -> returns (field ua k))
  \/ (Browser.detect ua = Raise ValueError
      /\ exists k, In k (examined ua) /\ ~ returns (field ua k)).
Proof.
  detect_cases ua;
    repeat match goal with
      | H : field _ _ = Raise ?e |- _ =>
          pose proof (version_at_raise _ _ _ _ H); subst e
      end;
    first
      [ left; eexists; split; [reflexivity |];
        intros k Hk; unfold returns;
        repeat (destruct Hk as [<- | Hk]; [eauto |]); destruct Hk
      | right; split; [reflexivity |];
        match goal with
        | H : field _ ?k = Raise _ |- _ =>
            exists k; split; [simpl; tauto |];
            intros [? ?]; congruence
        end ].
Qed.

Lemma examined_occurs ua k : In k (examined ua) -> occurs k ua.
Proof.
  unfold examined.
  repeat match goal with
    | |- context [Py.contains ?k ua] =>
        let E := fresh "E" in
        destruct (Py.contains k ua) eqn:E;
        [apply contains_occurs in E |]
    end;
    simpl; intros Hk;
    repeat (destruct Hk as [<- | Hk]; [assumption |]); destruct Hk.
Qed.

Lemma detect_chromium ua self :
  Browser.detect ua = Ok self ->
  (0 <= Browser.chromium_version self ->
   Browser.type self = Browser.CHROME \/ Browser.type self = Browser.EDGE
   \/ Browser.type self = Browser.OPERA)
  /\ (0 <= Browser.chromium_version self <->
      ~ occurs "Firefox" ua /\ occurs "Chrome" ua
      /\ exists v, field ua "Chrome" = Ok v /\ 0 <= v)
  /\ (Browser.type self = Browser.CHROME ->
      Browser.chromium_version self = Browser.version self)
  /\ (Browser.type self = Browser.FIREFOX
      \/ Browser.type self = Browser.SAFARI
      \/ Browser.type self = Browser.NONE ->
      Browser.chromium_version self = -1).
Proof.
  rewrite <- !contains_occurs. intros D. revert D.
  detect_cases ua; intros D; simplify_eq; simpl; family_facts;
    repeat split; try (intros; lia); try discriminate;
    try (intros; congruence); auto;
    try (intros (? & ? & v & ? & ?); congruence);
    try (intros [? | [? | ?]]; congruence);
    try (intros; tauto).
  all: try (intros _; eexists; split; [reflexivity | assumption]).
  all: try (intros (_ & _ & v & ? & ?); simplify_eq; assumption).
  all: try (eexists; split; [reflexivity | assumption]).
Qed.

(** ** The claims *)

(** C1, as stated, fails: an identity string with the Edge token and the
    Safari token, and with neither a Chrome nor a Firefox token, is parsed
    to the family Safari, with the version read after the Safari keyword:
    the family is not the one of the specific-brand token. *)
Lemma edge_overridden_by_safari :
  occurs "Edg" edge_safari_ua
  /\ ~ occurs "Chrome" edge_safari_ua
  /\ Browser.__init__ edge_safari_ua quiet
     = (quiet, Ok (Browser.set_branding "" (facts Browser.SAFARI 605 (-1))))
  /\ Browser.SAFARI <> Browser.EDGE
  /\ Browser.SAFARI <> Browser.OPERA.
Proof.
  split; [apply contains_occurs; reflexivity |].
  split; [intros H; apply contains_occurs in H; discriminate H |].
  split; [reflexivity |]. split; discriminate.
Qed.

(** C1, amended. An identity string that contains the Edge token [Edg] or
    the Opera token [OPR] never yields the family Chrome, also when it
    contains the Chrome token. When it has no Firefox token, and has the
    Chrome token or has no Safari token, the family is that of the specific
    brand, Edge being looked for before Opera. *)
Theorem edge_opera_never_chrome ua w w' b :
  occurs "Edg" ua \/ occurs "OPR" ua ->
  Browser.__init__ ua w = (w', Ok b) ->
  Browser.type b <> Browser.CHROME
  /\ (~ occurs "Firefox" ua ->
      occurs "Chrome" ua \/ ~ occurs "Safari" ua ->
      Browser.type b =
      if Py.contains "Edg" ua then Browser.EDGE else Browser.OPERA).
Proof.
  intros H E. apply init_inv in E as (self & s & D & -> & _).
  rewrite <- !contains_occurs in *. simpl. revert D H.
  detect_cases ua; intros D H; simplify_eq; simpl; family_facts;
    intuition (discriminate || congruence).
Qed.

Lemma edge_opera_never_chrome_witness :
  (occurs "Edg" edge_ua \/ occurs "OPR" edge_ua)
  /\ Browser.type (value (facts 0 0 0) (Browser.__init__ edge_ua quiet))
     <> Browser.CHROME
  /\ Browser.type (value (facts 0 0 0) (Browser.__init__ edge_ua quiet))
     = Browser.EDGE.
Proof.
  assert (occurs "Edg" edge_ua \/ occurs "OPR" edge_ua) as H
    by (left; apply contains_occurs; reflexivity).
  split; [exact H |].
  assert (Browser.__init__ edge_ua quiet
          = (fst (Browser.__init__ edge_ua quiet),
             Ok (value (facts 0 0 0) (Browser.__init__ edge_ua quiet))))
    as E.
  { vm_compute. reflexivity. }
  destruct (edge_opera_never_chrome edge_ua quiet _ _ H E) as [Hn Hf].
  split; [exact Hn |].
  apply Hf.
  - intros F. apply contains_occurs in F. discriminate F.
  - left. apply contains_occurs. reflexivity.
Defined.

(** C2, as stated, fails: an identity string with the Edge token and no
    Chrome token is parsed to the family Edge with [chromium_version = -1],
    so the family is one of Chrome, Edge, Opera while
    [chromium_version >= 0] does not hold. *)
Lemma edge_without_chromium :
  let b := Browser.set_branding "" (facts Browser.EDGE 119 (-1)) in
  Browser.__init__ edge_only_ua quiet = (quiet, Ok b)
  /\ Browser.type b = Browser.EDGE
  /\ Browser.chromium_version b = -1
  /\ ~ (0 <= Browser.chromium_version b
        <-> Browser.type b = Browser.CHROME \/ Browser.type b = Browser.EDGE
            \/ Browser.type b = Browser.OPERA).
Proof.
  repeat split; try reflexivity. simpl. intros [_ H].
  specialize (H (or_intror (or_introl eq_refl))). lia.
Qed.

(** C2, amended. Whenever parsing returns, [uses_chromium()] is the test
    [chromium_version >= 0]; it holds only for the families Chrome, Edge
    and Opera, and exactly when the string has no Firefox token and has a
    Chrome token whose version field is a non-negative integer. For the
    family Chrome the two versions are equal, and for Firefox, Safari and
    the unknown family [chromium_version] is [-1]. *)
Theorem chromium_version_family ua w w' b :
  Browser.__init__ ua w = (w', Ok b) ->
  (Browser.uses_chromium b = true <-> 0 <= Browser.chromium_version b)
  /\ (0 <= Browser.chromium_version b ->
      Browser.type b = Browser.CHROME \/ Browser.type b = Browser.EDGE
      \/ Browser.type b = Browser.OPERA)
  /\ (0 <= Browser.chromium_version b <->
      ~ occurs "Firefox" ua /\ occurs "Chrome" ua
      /\ exists v, field ua "Chrome" = Ok v /\ 0 <= v)
  /\ (Browser.type b = Browser.CHROME ->
      Browser.chromium_version b = Browser.version b)
  /\ (Browser.type b = Browser.FIREFOX \/ Browser.type b = Browser.SAFARI
      \/ Browser.type b = Browser.NONE ->
      Browser.chromium_version b = -1).
Proof.
  intros E. apply init_inv in E as (self & s & D & -> & _).
  split; [unfold Browser.uses_chromium; apply Z.leb_le |].
  exact (detect_chromium ua self D).
Qed.

Lemma chromium_version_family_witness :
  Browser.__init__ edge_ua quiet
  = (fst (Browser.__init__ edge_ua quiet),
     Ok (value (facts 0 0 0) (Browser.__init__ edge_ua quiet)))
  /\ (Browser.type (value (facts 0 0 0) (Browser.__init__ edge_ua quiet))
      = Browser.CHROME
      \/ Browser.type (value (facts 0 0 0) (Browser.__init__ edge_ua quiet))
         = Browser.EDGE
      \/ Browser.type (value (facts 0 0 0) (Browser.__init__ edge_ua quiet))
         = Browser.OPERA).
Proof.
  assert (Browser.__init__ edge_ua quiet
          = (fst (Browser.__init__ edge_ua quiet),
             Ok (value (facts 0 0 0) (Browser.__init__ edge_ua quiet)))) as E
    by (vm_compute; reflexivity).
  split; [exact E |].
  destruct (chromium_version_family edge_ua quiet _ _ E) as (_ & H & _).
  apply H. vm_compute. discriminate.
Defined.



(** C5, as stated, fails: the Firefox token is present, the text after it
    is not an integer, and the parse raises [ValueError] instead of
    returning with the version [-1]. *)
Lemma malformed_version_aborts :
  occurs "Firefox" firefox_beta_ua
  /\ field firefox_beta_ua "Firefox" = Raise ValueError
  /\ Browser.__init__ firefox_beta_ua quiet = (quiet, Raise ValueError).
Proof.
  split; [apply contains_occurs; reflexivity |]. split; reflexivity.
Qed.

(** C5, amended. [Browser.__init__] reads the version field of the tokens
    of [examined], each of which is present. If one of these fields is not
    an integer the parse raises [ValueError], which reaches the caller with
    nothing drawn or printed; no version is replaced by [-1]. If all of
    them are integers the parse returns. *)
Theorem malformed_version_raises ua w :
  (forall k, In k (examined ua) -> occurs k ua)
  /\ ((exists k, In k (examined ua) /\ ~ returns (field ua k)) ->
      Browser.__init__ ua w = (w, Raise ValueError))
  /\ ((forall k, In k (examined ua) -> returns (field ua k)) ->
      exists w' b,
        Browser.__init__ ua w = (w', Ok b) /\ stdout w' = stdout w).
Proof.
  split; [intros k; apply examined_occurs |].
  destruct (detect_outcome ua) as [(self & D & Hall) | (D & k & Hk & Hn)].
  - split.
    + intros (k & Hk & Hn). destruct Hn. apply Hall, Hk.
    + intros _. destruct (init_ok ua self w D) as (w' & s & E & Ho). eauto.
  - split.
    + intros _. apply init_raise, D.
    + intros Hall. destruct Hn. apply Hall, Hk.
Qed.

Lemma malformed_version_raises_witness :
  (exists k, In k (examined firefox_beta_ua)
             /\ ~ returns (field firefox_beta_ua k))
  /\ Browser.__init__ firefox_beta_ua quiet = (quiet, Raise ValueError).
Proof.
  assert (exists k, In k (examined firefox_beta_ua)
                    /\ ~ returns (field firefox_beta_ua k)) as H.
  { exists "Firefox". split; [vm_compute; tauto |].
    intros [v Hv]. vm_compute in Hv. discriminate. }
  split; [exact H |].
  destruct (malformed_version_raises firefox_beta_ua quiet) as (_ & Hr & _).
  exact (Hr H).
Defined.

(** ** Platform: what [__init__] assigns *)

Lemma len_pos ua : (0 <? Py.len ua) = true <-> ua <> "".
Proof.
  destruct ua as [|c ua]; unfold Py.len; simpl; split.
  - discriminate.
  - intros H. destruct H. reflexivity.
  - discriminate.
  - reflexivity.
Qed.

Lemma partition_find sep s :
  Py.partition sep s = None <-> Py.find sep s = -1.
Proof.
  induction s as [|c s IH]; rewrite find_unfold; simpl;
    destruct (Py.startswith sep _); try (split; [discriminate | lia]);
    try tauto.
  cbv zeta. pose proof (find_range sep s) as Hr.
  destruct (Py.partition sep s) as [[a b] |].
  - destruct (Z.ltb_spec (Py.find sep s) 0); split; try discriminate;
      intros; try lia.
    assert (Py.find sep s = -1) as Hf by lia.
    apply IH in Hf. discriminate.
  - destruct IH as [IH _]. rewrite (IH eq_refl). tauto.
Qed.

Lemma system_info_returns ua :
  occurs "(" ua <-> returns (Platform.system_info_of ua).
Proof.
  unfold Platform.system_info_of, returns. simpl.
  rewrite <- find_occurs.
  destruct (Py.partition "(" ua) as [[a b] |] eqn:E.
  - simpl. destruct (Py.partition ")" b) as [[c d] |]; simpl.
    all: split; [eauto |]; intros _.
    all: destruct (find_range "(" ua) as [Hf | Hf]; [| exact Hf].
    all: apply partition_find in Hf; congruence.
  - simpl. apply partition_find in E. split; [lia |].
    intros [a Ha]. discriminate.
Qed.

Lemma platform_empty w :
  Platform.__init__ "" w
  = ({| rng := rng w;
        stdout := stdout w ++ [Platform.empty_message +:+ " " +:+ sys_stderr] |},
     Ok {| Platform.type := None; Platform.os := Some "";
           Platform.os_version := Some ""; Platform.is_mobile := None |}).
Proof. reflexivity. Qed.

Lemma platform_nonempty ua w w' p :
  ua <> "" ->
  Platform.__init__ ua w = (w', Ok p) ->
  Platform.is_mobile p = Some false /\ is_Some (Platform.type p).
Proof.
  intros Hne. apply len_pos in Hne.
  unfold Platform.__init__. rewrite Hne.
  unfold bind, lift, ret, print.
  repeat case_match; intros; simplify_eq; simpl; eauto.
Qed.

Lemma platform_fallback ua w info :
  ua <> "" ->
  Platform.system_info_of ua = Ok info ->
  Py.contains "Windows" info = false ->
  Py.contains "Macintosh" info = false ->
  Py.contains "X11" info = false ->
  exists ty,
    Py.index (Py.split " " 1 ua) 0 = Ok ty
    /\ Platform.__init__ ua w
       = ({| rng := rng w;
             stdout :=
               stdout w
               ++ [Platform.unparseable info +:+ " " +:+ sys_stderr] |},
          Ok {| Platform.type := Some ty; Platform.os := Some "";
                Platform.os_version := Some "";
                Platform.is_mobile := Some false |}).
Proof.
  intros Hne Hi Hw Hm Hx. apply len_pos in Hne.
  destruct (split_head " " 1 ua) as (ty & l & Hs).
  exists ty. unfold Platform.__init__. rewrite Hne, Hs.
  split; [reflexivity |].
  unfold bind, lift. rewrite Hi, Hw, Hm, Hx. reflexivity.
Qed.

(** C7, as stated, fails: for the empty identity string the parse returns
    a platform whose [type] has not been assigned. *)
Lemma platform_type_unset :
  Platform.__init__ "" quiet
  = ({| rng := rng quiet;
        stdout := [Platform.empty_message +:+ " " +:+ sys_stderr] |},
     Ok {| Platform.type := None; Platform.os := Some "";
           Platform.os_version := Some ""; Platform.is_mobile := None |}).
Proof. reflexivity. Qed.

(** C7, amended. For every non-empty identity string on which the platform
    parse returns, [type] is assigned; when the system information names
    none of Windows, Macintosh and X11 it is the first space-delimited
    token of the whole identity string, and a diagnostic is printed. For
    the empty identity string the parse returns, having printed a
    diagnostic, with [os] and [os_version] empty and with [type] and
    [is_mobile] not assigned. *)
Theorem platform_type_set :
  (forall ua w w' p,
      ua <> "" ->
      Platform.__init__ ua w = (w', Ok p) ->
      exists ty, Platform.type p = Some ty)
  /\ (forall ua w info,
         ua <> "" ->
         Platform.system_info_of ua = Ok info ->
         Py.contains "Windows" info = false ->
         Py.contains "Macintosh" info = false ->
         Py.contains "X11" info = false ->
         exists ty,
           Py.index (Py.split " " 1 ua) 0 = Ok ty
           /\ Platform.__init__ ua w
              = ({| rng := rng w;
                    stdout :=
                      stdout w
                      ++ [Platform.unparseable info +:+ " " +:+ sys_stderr] |},
                 Ok {| Platform.type := Some ty; Platform.os := Some "";
                       Platform.os_version := Some "";
                       Platform.is_mobile := Some false |}))
  /\ (forall w,
         Platform.__init__ "" w
         = ({| rng := rng w;
               stdout :=
                 stdout w ++ [Platform.empty_message +:+ " " +:+ sys_stderr] |},
            Ok {| Platform.type := None; Platform.os := Some "";
                  Platform.os_version := Some "";
                  Platform.is_mobile := None |})).
Proof.
  split; [| split].
  - intros ua w w' p Hne E.
    destruct (platform_nonempty ua w w' p Hne E) as [_ [ty Hty]]. eauto.
  - apply platform_fallback.
  - apply platform_empty.
Qed.

Lemma platform_type_set_witness :
  beos_ua <> ""
  /\ Platform.system_info_of beos_ua = Ok "BeOS; I"
  /\ Platform.__init__ beos_ua quiet
     = ({| rng := rng quiet;
           stdout :=
             [Platform.unparseable "BeOS; I" +:+ " " +:+ sys_stderr] |},
        Ok {| Platform.type := Some "NetPositive/2.2";
              Platform.os := Some ""; Platform.os_version := Some "";
              Platform.is_mobile := Some false |}).
Proof.
  assert (beos_ua <> "") as Hne by discriminate.
  split; [exact Hne |]. split; [reflexivity |].
  destruct platform_type_set as (_ & Hf & _).
  destruct (Hf beos_ua quiet "BeOS; I" Hne eq_refl eq_refl eq_refl eq_refl)
    as (ty & Hty & E).
  injection Hty as <-. exact E.
Defined.

(** C8. The Edge identity string of the round-trip scenario is parsed to
    the family Edge with version 119 and Chromium version 119, on the
    platform type "Windows NT 10.0", not mobile. *)
Theorem edge_round_trip w :
  exists w' env,
    Environment.__init__ edge_ua w = (w', Ok env)
    /\ Environment.ua env = edge_ua
    /\ Browser.type (Environment.browser env) = Browser.EDGE
    /\ Browser.version (Environment.browser env) = 119
    /\ Browser.chromium_version (Environment.browser env) = 119
    /\ Platform.type (Environment.platform env) = Some "Windows NT 10.0"
    /\ Platform.is_mobile (Environment.platform env) = Some false.
Proof.
  destruct (init_ok edge_ua (facts Browser.EDGE 119 119) w eq_refl)
    as (w' & s & E & _).
  eexists w', _. split.
  - unfold Environment.__init__. rewrite (bind_ok _ _ _ _ _ E).
    unfold bind. reflexivity.
  - repeat split; reflexivity.
Qed.

(** ** The headers *)

Lemma lookup_setdefault k v (h : gmap string string) k' :
  MaskedMiner.setdefault k v h !! k'
  = match h !! k' with
    | Some x => Some x
    | None => if decide (k = k') then Some v else None
    end.
Proof.
  unfold MaskedMiner.setdefault.
  destruct (h !! k) as [x |] eqn:Hk.
  - destruct (h !! k') as [y |] eqn:Hk'; [reflexivity |].
    case_decide; [congruence | reflexivity].
  - rewrite lookup_insert. case_decide.
    + subst k'. rewrite Hk. reflexivity.
    + destruct (h !! k'); reflexivity.
Qed.

Lemma setdefault_present k v (h : gmap string string) :
  is_Some (h !! k) -> MaskedMiner.setdefault k v h = h.
Proof. intros [x Hx]. unfold MaskedMiner.setdefault. rewrite Hx. reflexivity. Qed.

Lemma lookup_strip_sec ks (h : gmap string string) k :
  MaskedMiner.strip_sec ks h !! k
  = if MaskedMiner.is_sec k && bool_decide (k ∈ ks) then None else h !! k.
Proof.
  revert h. induction ks as [|a ks IH]; intros h;
    cbn [MaskedMiner.strip_sec].
  - rewrite (bool_decide_eq_false_2 (k ∈ [])) by apply not_elem_of_nil.
    rewrite andb_false_r. reflexivity.
  - rewrite IH. destruct (MaskedMiner.is_sec k) eqn:Hs; cbn [andb].
    + destruct (decide (k = a)) as [-> | Hne].
      * rewrite Hs, lookup_delete_eq.
        rewrite (bool_decide_eq_true_2 (a ∈ a :: ks))
          by (apply elem_of_cons; left; reflexivity).
        destruct (bool_decide (a ∈ ks)); reflexivity.
      * assert (bool_decide (k ∈ a :: ks) = bool_decide (k ∈ ks)) as ->.
        { apply bool_decide_ext. rewrite elem_of_cons. tauto. }
        destruct (bool_decide (k ∈ ks)); [reflexivity |].
        destruct (MaskedMiner.is_sec a); [| reflexivity].
        apply lookup_delete_ne. congruence.
    + destruct (MaskedMiner.is_sec a) eqn:Ha; [| reflexivity].
      apply lookup_delete_ne. intros ->. congruence.
Qed.

Lemma elem_of_keys (h : gmap string string) k :
  k ∈ MaskedMiner.keys h <-> is_Some (h !! k).
Proof.
  unfold MaskedMiner.keys. rewrite list_elem_of_In, in_map_iff. split.
  - intros ([k' v] & <- & Hin). apply list_elem_of_In in Hin.
    apply elem_of_map_to_list in Hin. eauto.
  - intros [v Hv]. exists (k, v). split; [reflexivity |].
    apply list_elem_of_In, elem_of_map_to_list, Hv.
Qed.

Lemma lookup_strip_keys (h : gmap string string) k :
  MaskedMiner.strip_sec (MaskedMiner.keys h) h !! k
  = if MaskedMiner.is_sec k then None else h !! k.
Proof.
  rewrite lookup_strip_sec. destruct (MaskedMiner.is_sec k); [| reflexivity].
  simpl. case_bool_decide as Hk; [reflexivity |].
  rewrite elem_of_keys in Hk. destruct (h !! k) eqn:E; [| reflexivity].
  destruct Hk. eauto.
Qed.

Lemma strip_keys_clean (h : gmap string string) :
  (forall k, MaskedMiner.is_sec k = true -> h !! k = None) ->
  MaskedMiner.strip_sec (MaskedMiner.keys h) h = h.
Proof.
  intros Hc. apply map_eq. intros k. rewrite lookup_strip_keys.
  destruct (MaskedMiner.is_sec k) eqn:Hs; [| reflexivity].
  symmetry. apply Hc, Hs.
Qed.

Lemma nonempty_token_occurs k c : ~ occurs (String c k) "".
Proof. intros (pre & post & H). destruct pre; discriminate. Qed.

(** What a session built by [Environment.__init__] carries. *)
Lemma session_attrs ua w w' env :
  Environment.__init__ ua w = (w', Ok env) ->
  Environment.ua env = ua
  /\ if Browser.uses_chromium (Environment.browser env) then
       exists branding ty,
         Browser.branding (Environment.browser env) = Some branding
         /\ Platform.is_mobile (Environment.platform env) = Some false
         /\ Platform.type (Environment.platform env) = Some ty
     else True.
Proof.
  intros E. apply bind_inv in E as (w1 & b & Eb & E).
  apply bind_inv in E as (w2 & p & Ep & E).
  unfold ret in E. injection E as _ <-. simpl. split; [reflexivity |].
  destruct (Browser.uses_chromium b) eqn:Hc; [| exact I].
  apply init_inv in Eb as (self & s & D & -> & _).
  destruct (detect_chromium ua self D) as (_ & Hiff & _).
  unfold Browser.uses_chromium in Hc. simpl in Hc. apply Z.leb_le in Hc.
  apply Hiff in Hc as (_ & Ho & _).
  assert (ua <> "") as Hne.
  { intros ->. exact (nonempty_token_occurs _ _ Ho). }
  destruct (platform_nonempty ua w1 w2 p Hne Ep) as (Hm & ty & Hty).
  exists s, ty. simpl. auto.
Qed.

Lemma mask_headers_eq ua w w' env h :
  Environment.__init__ ua w = (w', Ok env) ->
  if Browser.uses_chromium (Environment.browser env) then
    exists branding ty,
      Browser.branding (Environment.browser env) = Some branding
      /\ Platform.type (Environment.platform env) = Some ty
      /\ MaskedMiner.mask_headers env h
         = Ok (chromium_headers branding ty (base_headers ua h))
  else
    MaskedMiner.mask_headers env h
    = Ok (MaskedMiner.strip_sec (MaskedMiner.keys (base_headers ua h))
            (base_headers ua h)).
Proof.
  intros E. destruct (session_attrs ua w w' env E) as (Hua & Ha).
  unfold MaskedMiner.mask_headers. rewrite Hua.
  destruct (Browser.uses_chromium (Environment.browser env)).
  - destruct Ha as (branding & ty & Hb & Hm & Hty).
    exists branding, ty. rewrite Hb, Hm, Hty. auto.
  - reflexivity.
Qed.

Ltac lookup_headers :=
  unfold chromium_headers, base_headers;
  repeat (rewrite ?lookup_strip_keys, ?lookup_setdefault).

(** C3, as stated, fails: after the headers of a session have been added
    to an empty mapping there is no header named [do-not-track]; the header
    the code adds is [dnt]. *)
Lemma do_not_track_absent :
  Environment.__init__ firefox_ua quiet = (quiet, Ok (session firefox_ua))
  /\ exists h',
       MaskedMiner.mask_headers (session firefox_ua) ∅ = Ok h'
       /\ h' !! "do-not-track" = None
       /\ h' !! "dnt" = Some "1".
Proof.
  assert (Environment.__init__ firefox_ua quiet
          = (quiet, Ok (session firefox_ua))) as E by reflexivity.
  split; [exact E |].
  pose proof (mask_headers_eq firefox_ua quiet quiet _ ∅ E) as H.
  change (Browser.uses_chromium (Environment.browser (session firefox_ua)))
    with false in H.
  eexists. split; [exact H |].
  lookup_headers. rewrite !lookup_empty. split; reflexivity.
Qed.

(** C3, amended. For every session and caller-supplied header mapping the
    header block returns a mapping in which [accept-language], [dnt] (the
    do-not-track header) and [user-agent] (by default the session's
    identity string) are present, each with the caller's value when the
    caller had set it. For a Chromium session [sec-ch-ua],
    [sec-ch-ua-mobile] and [sec-ch-ua-platform] are added in the same way
    and every key of the caller keeps its value; otherwise every header
    whose lower-cased name starts with [sec-] is removed and every other
    key of the caller keeps its value. *)
Theorem header_policy ua w w' env (h : gmap string string) :
  Environment.__init__ ua w = (w', Ok env) ->
  exists h',
    MaskedMiner.mask_headers env h = Ok h'
    /\ (forall k v,
           h !! k = Some v ->
           Browser.uses_chromium (Environment.browser env) = true
           \/ MaskedMiner.is_sec k = false ->
           h' !! k = Some v)
    /\ h' !! "accept-language"
       = Some (default "en-US,en;q=0.9" (h !! "accept-language"))
    /\ h' !! "dnt" = Some (default "1" (h !! "dnt"))
    /\ h' !! "user-agent" = Some (default ua (h !! "user-agent"))
    /\ if Browser.uses_chromium (Environment.browser env) then
         exists branding ty,
           Browser.branding (Environment.browser env) = Some branding
           /\ Platform.type (Environment.platform env) = Some ty
           /\ h' !! "sec-ch-ua" = Some (default branding (h !! "sec-ch-ua"))
           /\ h' !! "sec-ch-ua-mobile"
              = Some (default "?0" (h !! "sec-ch-ua-mobile"))
           /\ h' !! "sec-ch-ua-platform"
              = Some (default (Browser.dquote +:+ ty +:+ Browser.dquote)
                        (h !! "sec-ch-ua-platform"))
       else forall k, MaskedMiner.is_sec k = true -> h' !! k = None.
Proof.
  intros E. pose proof (mask_headers_eq ua w w' env h E) as H.
  destruct (Browser.uses_chromium (Environment.browser env)).
  - destruct H as (branding & ty & Hb & Hty & H).
    eexists. split; [exact H |]. split; [| split; [| split; [| split]]].
    + intros k v Hk _. lookup_headers. rewrite Hk. reflexivity.
    + lookup_headers. destruct (h !! "accept-language"); reflexivity.
    + lookup_headers. destruct (h !! "dnt"); reflexivity.
    + lookup_headers. destruct (h !! "user-agent"); reflexivity.
    + exists branding, ty. split; [exact Hb |]. split; [exact Hty |].
      split; [| split]; lookup_headers.
      * destruct (h !! "sec-ch-ua"); reflexivity.
      * destruct (h !! "sec-ch-ua-mobile"); reflexivity.
      * destruct (h !! "sec-ch-ua-platform"); reflexivity.
  - eexists. split; [exact H |]. split; [| split; [| split; [| split]]].
    + intros k v Hk [Hc | Hs]; [discriminate |].
      lookup_headers. rewrite Hs, Hk. reflexivity.
    + lookup_headers. destruct (h !! "accept-language"); reflexivity.
    + lookup_headers. destruct (h !! "dnt"); reflexivity.
    + lookup_headers. destruct (h !! "user-agent"); reflexivity.
    + intros k Hs. lookup_headers. rewrite Hs. reflexivity.
Qed.

Lemma header_policy_witness :
  Environment.__init__ firefox_ua quiet = (quiet, Ok (session firefox_ua))
  /\ exists h',
       MaskedMiner.mask_headers (session firefox_ua) ∅ = Ok h'
       /\ h' !! "user-agent" = Some firefox_ua.
Proof.
  assert (Environment.__init__ firefox_ua quiet
          = (quiet, Ok (session firefox_ua))) as E by reflexivity.
  split; [exact E |].
  destruct (header_policy firefox_ua quiet quiet _ ∅ E)
    as (h' & H & _ & _ & _ & Hua & _).
  exists h'. split; [exact H |]. rewrite Hua, lookup_empty. reflexivity.
Defined.

(** C9, as stated, fails: for a Firefox session a header [sec-fetch-site]
    set by the caller is present before the first application and absent
    after the two applications. *)
Lemma sec_header_removed :
  Environment.__init__ firefox_ua quiet = (quiet, Ok (session firefox_ua))
  /\ ({[ "sec-fetch-site" := "none" ]} : gmap string string)
       !! "sec-fetch-site" = Some "none"
  /\ exists h1 h2,
       MaskedMiner.mask_headers (session firefox_ua)
         {[ "sec-fetch-site" := "none" ]} = Ok h1
       /\ MaskedMiner.mask_headers (session firefox_ua) h1 = Ok h2
       /\ h2 !! "sec-fetch-site" = None.
Proof.
  assert (Environment.__init__ firefox_ua quiet
          = (quiet, Ok (session firefox_ua))) as E by reflexivity.
  split; [exact E |]. split; [apply lookup_singleton_eq |].
  pose proof (fun h => mask_headers_eq firefox_ua quiet quiet _ h E) as H.
  change (Browser.uses_chromium (Environment.browser (session firefox_ua)))
    with false in H. cbv beta iota in H.
  eexists _, _. split; [apply H |]. split; [apply H |].
  rewrite lookup_strip_keys. reflexivity.
Qed.

(** C9, amended. For every session and header mapping the header block,
    applied to its own result, returns that result unchanged; and a key
    that was present before the first application keeps its value, unless
    the session is not a Chromium one and the lower-cased key starts with
    [sec-], in which case the first application removes it. *)
Theorem header_policy_twice ua w w' env (h : gmap string string) :
  Environment.__init__ ua w = (w', Ok env) ->
  exists h1,
    MaskedMiner.mask_headers env h = Ok h1
    /\ MaskedMiner.mask_headers env h1 = Ok h1
    /\ (forall k v,
           h !! k = Some v ->
           Browser.uses_chromium (Environment.browser env) = true
           \/ MaskedMiner.is_sec k = false ->
           h1 !! k = Some v)
    /\ (forall k v,
           h !! k = Some v ->
           Browser.uses_chromium (Environment.browser env) = false ->
           MaskedMiner.is_sec k = true ->
           h1 !! k = None).
Proof.
  intros E. pose proof (fun h => mask_headers_eq ua w w' env h E) as H.
  destruct (Browser.uses_chromium (Environment.browser env)).
  - destruct (H h) as (branding & ty & Hb & Hty & H1).
    eexists. split; [exact H1 |]. split; [| split].
    + destruct (H (chromium_headers branding ty (base_headers ua h)))
        as (branding' & ty' & Hb' & Hty' & H2).
      rewrite H2. f_equal. simplify_eq. apply map_eq. intros k.
      lookup_headers.
      destruct (h !! k); [reflexivity |].
      repeat (case_decide; try reflexivity).
    + intros k v Hk _. lookup_headers. rewrite Hk. reflexivity.
    + intros; discriminate.
  - eexists. split; [apply H |]. split; [| split].
    + set (h1 := MaskedMiner.strip_sec
                   (MaskedMiner.keys (base_headers ua h)) (base_headers ua h)).
      rewrite (H h1). f_equal.
      assert (forall k, MaskedMiner.is_sec k = true -> h1 !! k = None) as Hc.
      { intros k Hs. unfold h1. rewrite lookup_strip_keys, Hs. reflexivity. }
      assert (base_headers ua h1 = h1) as ->.
      { unfold base_headers.
        rewrite !setdefault_present; [reflexivity | ..];
          unfold h1; lookup_headers; simpl; repeat case_match; eauto. }
      apply strip_keys_clean, Hc.
    + intros k v Hk [Hc | Hs]; [discriminate |].
      lookup_headers. rewrite Hs, Hk. reflexivity.
    + intros k v _ _ Hs. lookup_headers. rewrite Hs. reflexivity.
Qed.

Lemma header_policy_twice_witness :
  Environment.__init__ firefox_ua quiet = (quiet, Ok (session firefox_ua))
  /\ exists h1,
       MaskedMiner.mask_headers (session firefox_ua) {[ "dnt" := "0" ]}
       = Ok h1
       /\ MaskedMiner.mask_headers (session firefox_ua) h1 = Ok h1
       /\ h1 !! "dnt" = Some "0".
Proof.
  assert (Environment.__init__ firefox_ua quiet
          = (quiet, Ok (session firefox_ua))) as E by reflexivity.
  split; [exact E |].
  destruct (header_policy_twice firefox_ua quiet quiet _ {[ "dnt" := "0" ]} E)
    as (h1 & H1 & H2 & Hk & _).
  exists h1. split; [exact H1 |]. split; [exact H2 |].
  apply Hk; [apply lookup_singleton_eq | right; reflexivity].
Defined.

(** C10. For every non-empty identity string on which the platform parse
    returns, [is_mobile] is [False]; for the empty identity string it is
    not assigned. Whenever the header block adds [sec-ch-ua-mobile] to the
    headers of a session, the value is [?0]. *)
Theorem never_mobile :
  (forall ua w w' p,
      ua <> "" ->
      Platform.__init__ ua w = (w', Ok p) ->
      Platform.is_mobile p = Some false)
  /\ (forall w w' p,
         Platform.__init__ "" w = (w', Ok p) -> Platform.is_mobile p = None)
  /\ (forall ua w w' env (h h' : gmap string string) v,
         Environment.__init__ ua w = (w', Ok env) ->
         MaskedMiner.mask_headers env h = Ok h' ->
         h !! "sec-ch-ua-mobile" = None ->
         h' !! "sec-ch-ua-mobile" = Some v ->
         v = "?0").
Proof.
  split; [| split].
  - intros ua w w' p Hne E. apply (platform_nonempty ua w w' p Hne E).
  - intros w w' p E. rewrite platform_empty in E.
    injection E as _ <-. reflexivity.
  - intros ua w w' env h h' v E Hm Hk Hv.
    pose proof (mask_headers_eq ua w w' env h E) as H.
    destruct (Browser.uses_chromium (Environment.browser env)).
    + destruct H as (branding & ty & _ & _ & H).
      rewrite H in Hm. injection Hm as <-. revert Hv.
      lookup_headers. rewrite Hk. simpl. congruence.
    + rewrite H in Hm. injection Hm as <-. revert Hv.
      rewrite lookup_strip_keys. discriminate.
Qed.

Lemma never_mobile_witness :
  edge_ua <> ""
  /\ Platform.is_mobile (value Platform.blank (Platform.__init__ edge_ua quiet))
     = Some false.
Proof.
  assert (edge_ua <> "") as Hne by discriminate.
  split; [exact Hne |].
  destruct never_mobile as (Hm & _).
  apply (Hm edge_ua quiet
           (fst (Platform.__init__ edge_ua quiet)) _ Hne).
  vm_compute. reflexivity.
Defined.

(** * Further properties *)

(** ** Browser *)

(** X1. The family of a parsed browser depends only on which tokens occur:
    Firefox wins over everything; otherwise, with a Chrome token, Edge wins
    over Opera and Opera over Chrome; without a Chrome token a Safari token
    wins even over Edge and Opera. *)
Theorem family_table ua w w' b :
  Browser.__init__ ua w = (w', Ok b) ->
  Browser.type b = family_of ua.
Proof.
  intros E. apply init_inv in E as (self & s & D & -> & _).
  unfold family_of. simpl. revert D.
  detect_cases ua; intros D; simplify_eq; reflexivity.
Qed.

Lemma family_table_witness :
  Browser.__init__ edge_only_ua quiet
  = (quiet, Ok (Browser.set_branding "" (facts Browser.EDGE 119 (-1))))
  /\ Browser.type (Browser.set_branding "" (facts Browser.EDGE 119 (-1)))
     = family_of edge_only_ua.
Proof.
  assert (Browser.__init__ edge_only_ua quiet
          = (quiet, Ok (Browser.set_branding ""
                          (facts Browser.EDGE 119 (-1))))) as E
    by reflexivity.
  split; [exact E |]. exact (family_table _ _ _ _ E).
Defined.

(** X2. When parsing returns, a browser of the unknown family has the
    version [-1] and the Chromium version [-1], and the identity string
    has none of the family tokens, so that no version field was read; a
    browser of any other family has as its version the integer read after
    the first occurrence of the keyword of its family. *)
Theorem version_source ua w w' b :
  Browser.__init__ ua w = (w', Ok b) ->
  (Browser.type b = Browser.NONE ->
   Browser.version b = -1 /\ Browser.chromium_version b = -1
   /\ forall k, In k family_tokens -> ~ occurs k ua)
  /\ (Browser.type b <> Browser.NONE ->
      field ua (Browser.keyword (Browser.type b)) = Ok (Browser.version b)).
Proof.
  intros E. apply init_inv in E as (self & s & D & -> & _).
  simpl. revert D.
  detect_cases ua; intros D; simplify_eq;
    cbn [Browser.keyword nth Browser.__keywords Browser.type Browser.version
         Browser.chromium_version
         facts Browser.set_chromium_version Browser.set_version
         Browser.set_type Browser.NONE Browser.CHROME Browser.EDGE
         Browser.FIREFOX Browser.OPERA Browser.SAFARI] in *;
    (split; [intros Ht; try discriminate Ht
            | intros; try discriminate; congruence]).
  all: split; [reflexivity |]; split; [reflexivity |].
  all: intros k Hk Ho; apply contains_occurs in Ho.
  all: unfold family_tokens in Hk; cbn [In] in Hk.
  all: repeat (destruct Hk as [<- | Hk]; [congruence |]); destruct Hk.
Qed.

Lemma version_source_witness :
  Browser.__init__ edge_only_ua quiet
  = (quiet, Ok (Browser.set_branding "" (facts Browser.EDGE 119 (-1))))
  /\ field edge_only_ua "Edg" = Ok 119.
Proof.
  assert (Browser.__init__ edge_only_ua quiet
          = (quiet, Ok (Browser.set_branding ""
                          (facts Browser.EDGE 119 (-1))))) as E
    by reflexivity.
  split; [exact E |].
  destruct (version_source _ _ _ _ E) as (_ & H).
  apply H. discriminate.
Defined.

(** X3. When a parsed browser has [chromium_version >= 0], its own brand
    has a display name (Google Chrome, Microsoft Edge or Opera, by family),
    and the branding it carries is the [", "]-join of the formatted entries
    of a permutation of the fake brand, that name with the browser's
    version, and Chromium with the Chromium version. *)
Theorem parsed_branding ua w w' b :
  Browser.__init__ ua w = (w', Ok b) ->
  0 <= Browser.chromium_version b ->
  exists name fake fake_version brands,
    Browser.brand (Browser.type b) = Some name
    /\ In (Browser.type b, name)
         [ (Browser.CHROME, "Google Chrome");
           (Browser.EDGE, "Microsoft Edge");
           (Browser.OPERA, "Opera") ]
    /\ 1 <= fake_version <= 100
    /\ Permutation brands
         [ (fake, fake_version); (name, Browser.version b);
           ("Chromium", Browser.chromium_version b) ]
    /\ Browser.branding b
       = Some (Py.join ", " (map Browser.entry brands)).
Proof.
  intros E Hc. apply init_inv in E as (self & s & D & -> & E).
  simpl in Hc.
  destruct (detect_chromium ua self D) as (Hfam & _).
  destruct (brand_self_chromium self w)
    as (w2 & c1 & c2 & c3 & fv & brands & _ & _ & _ & Hfv & Hp & _ & E2).
  { unfold Browser.uses_chromium. apply Z.leb_le, Hc. }
  rewrite E2 in E. injection E as _ E.
  assert (exists name,
             Browser.brand (Browser.type self) = Some name
             /\ In (Browser.type self, name)
                  [ (Browser.CHROME, "Google Chrome");
                    (Browser.EDGE, "Microsoft Edge");
                    (Browser.OPERA, "Opera") ]) as (name & Hn & Hin).
  { destruct (Hfam Hc) as [-> | [-> | ->]]; eexists;
      (split; [reflexivity | simpl; tauto]). }
  exists name, (c1 +:+ "Not" +:+ c2 +:+ "A" +:+ c3 +:+ "Brand"), fv, brands.
  simpl. rewrite Hn in Hp. repeat split; try assumption; try lia.
  rewrite <- E. reflexivity.
Qed.

Lemma parsed_branding_witness :
  Browser.__init__ edge_ua quiet
  = (fst (Browser.__init__ edge_ua quiet),
     Ok (value (facts 0 0 0) (Browser.__init__ edge_ua quiet)))
  /\ exists name,
       Browser.brand
         (Browser.type (value (facts 0 0 0) (Browser.__init__ edge_ua quiet)))
       = Some name.
Proof.
  assert (Browser.__init__ edge_ua quiet
          = (fst (Browser.__init__ edge_ua quiet),
             Ok (value (facts 0 0 0) (Browser.__init__ edge_ua quiet)))) as E
    by (vm_compute; reflexivity).
  split; [exact E |].
  destruct (parsed_branding _ _ _ _ E) as (name & _ & _ & _ & Hn & _).
  { vm_compute. discriminate. }
  exists name. exact Hn.
Defined.

Lemma iter_advance n w :
  Nat.iter n Random.advance (Random.advance w)
  = Random.advance (Nat.iter n Random.advance w).
Proof. induction n as [|n IH]; [reflexivity | simpl; rewrite IH; reflexivity]. Qed.

Lemma shuffle_from_world {A : Type} i (x : list A) w :
  fst (Random.shuffle_from i x w) = Nat.iter i Random.advance w.
Proof.
  revert x w. induction i as [|i IH]; intros x w; [reflexivity |].
  change (Nat.iter (S i) Random.advance w)
    with (Random.advance (Nat.iter i Random.advance w)).
  rewrite <- iter_advance.
  exact (IH (Random.swap (S i) (rng w O mod S (S i))%nat x)
           (Random.advance w)).
Qed.

(** X4. Constructing a browser prints nothing. It uses the random source
    only for the branding of a Chromium-based browser, which takes exactly
    six draws (three filler characters, the fake version and two exchanges
    of the shuffle); a failed parse leaves the world as it was. *)
Theorem browser_draws ua w :
  (forall w' b,
      Browser.__init__ ua w = (w', Ok b) ->
      w' = Nat.iter (if Browser.uses_chromium b then 6 else 0)
             Random.advance w)
  /\ (forall w' e, Browser.__init__ ua w = (w', Raise e) -> w' = w)
  /\ stdout (fst (Browser.__init__ ua w)) = stdout w.
Proof.
  destruct (Browser.detect ua) as [self | e] eqn:D.
  - destruct (Browser.uses_chromium self) eqn:Hc.
    + destruct (brand_self_chromium self w Hc)
        as (w2 & c1 & c2 & c3 & fv & brands & _ & _ & _ & _ & _ & Ho & E).
      assert (Browser.__init__ ua w
              = (w2, Ok (Browser.set_branding
                           (Py.join ", " (map Browser.entry brands)) self)))
        as E'.
      { unfold Browser.__init__, bind, lift. rewrite D. exact E. }
      assert (w2 = Nat.iter 6 Random.advance w) as ->.
      { change w2 with (fst (w2, Ok (Browser.set_branding
                           (Py.join ", " (map Browser.entry brands)) self))).
        rewrite <- E. unfold Browser.brand_self. rewrite Hc.
        destruct (choice_spec Browser.misc w misc_nonempty) as (d1 & _ & E1).
        destruct (choice_spec Browser.misc (Random.advance w) misc_nonempty)
          as (d2 & _ & E2).
        destruct (choice_spec Browser.misc
                    (Random.advance (Random.advance w)) misc_nonempty)
          as (d3 & _ & E3).
        destruct (randint_spec 1 100
                    (Random.advance (Random.advance (Random.advance w))))
          as (v & _ & E4); [lia |].
        rewrite (bind_ok _ _ _ _ _ E1), (bind_ok _ _ _ _ _ E2),
          (bind_ok _ _ _ _ _ E3), (bind_ok _ _ _ _ _ E4).
        unfold Random.shuffle, bind.
        match goal with
        | |- context [Random.shuffle_from ?i ?x ?w0] =>
            pose proof (shuffle_from_world i x w0) as Hw;
            destruct (Random.shuffle_from i x w0) as [w5 [y | e]]
        end; exact Hw. }
      rewrite E'. split; [| split].
      * intros w' b H. injection H as <- <-. simpl.
        unfold Browser.uses_chromium in *. simpl. rewrite Hc. reflexivity.
      * intros w' e H. discriminate.
      * reflexivity.
    + assert (Browser.__init__ ua w
              = (w, Ok (Browser.set_branding "" self))) as E'.
      { unfold Browser.__init__, bind, lift. rewrite D.
        apply brand_self_other, Hc. }
      rewrite E'. split; [| split].
      * intros w' b H. injection H as <- <-.
        unfold Browser.uses_chromium in *. simpl. rewrite Hc. reflexivity.
      * intros w' e' H. discriminate.
      * reflexivity.
  - rewrite (init_raise ua e w D). split; [| split].
    + intros w' b H. discriminate.
    + intros w' e' H. injection H as <- _. reflexivity.
    + reflexivity.
Qed.

Lemma browser_draws_witness :
  Browser.__init__ edge_ua quiet
  = (fst (Browser.__init__ edge_ua quiet),
     Ok (value (facts 0 0 0) (Browser.__init__ edge_ua quiet)))
  /\ fst (Browser.__init__ edge_ua quiet)
     = Nat.iter 6 Random.advance quiet.
Proof.
  assert (Browser.__init__ edge_ua quiet
          = (fst (Browser.__init__ edge_ua quiet),
             Ok (value (facts 0 0 0) (Browser.__init__ edge_ua quiet)))) as E
    by (vm_compute; reflexivity).
  split; [exact E |].
  destruct (browser_draws edge_ua quiet) as (H & _).
  exact (H _ _ E).
Defined.

(** ** Strings, continued *)

Lemma append_cons c s t : String c s +:+ t = String c (s +:+ t).
Proof. reflexivity. Qed.

Lemma append_nil_r s : s +:+ "" = s.
Proof.
  induction s as [|c s IH]; [reflexivity |].
  rewrite append_cons, IH. reflexivity.
Qed.

Lemma append_assoc s t u : (s +:+ t) +:+ u = s +:+ t +:+ u.
Proof.
  induction s as [|c s IH]; [reflexivity |].
  rewrite !append_cons, IH. reflexivity.
Qed.

Lemma occurs_cons k c s : occurs k s -> occurs k (String c s).
Proof. intros (pre & post & ->). exists (String c pre), post. reflexivity. Qed.

Lemma partition_unfold sep s :
  Py.partition sep s =
  if Py.startswith sep s then Some ("", Py.drop (String.length sep) s)
  else match s with
       | EmptyString => None
       | String c s' =>
           match Py.partition sep s' with
           | Some (a, b) => Some (String c a, b)
           | None => None
           end
       end.
Proof. destruct s; reflexivity. Qed.

(** Nothing before the cut contains the separator. *)
Lemma partition_not_occurs c sep s a b :
  Py.partition (String c sep) s = Some (a, b) -> ~ occurs (String c sep) a.
Proof.
  revert a. induction s as [|d s IH]; intros a; rewrite partition_unfold;
    destruct (Py.startswith (String c sep) _) eqn:E.
  - intros H. injection H as <- <-. apply nonempty_token_occurs.
  - discriminate.
  - intros H. injection H as <- <-. apply nonempty_token_occurs.
  - destruct (Py.partition (String c sep) s) as [[a' b'] |] eqn:P;
      [| discriminate].
    intros H. injection H as <- <-. intros (pre & post & Ho).
    destruct pre as [|e pre].
    + apply partition_append in P.
      assert (Py.startswith (String c sep) (String d s) = true) as E'.
      { apply startswith_iff. exists (post +:+ String c sep +:+ b').
        rewrite P. change (String d (a' +:+ String c sep +:+ b'))
          with (String d a' +:+ String c sep +:+ b').
        rewrite Ho. change ("" +:+ String c sep +:+ post)
          with (String c sep +:+ post).
        rewrite append_assoc. reflexivity. }
      congruence.
    + injection Ho as _ Ho. apply (IH a' eq_refl).
      exists pre, post. exact Ho.
Qed.

Lemma partition_none sep s : Py.partition sep s = None <-> ~ occurs sep s.
Proof.
  rewrite partition_find, <- find_occurs.
  destruct (find_range sep s); lia.
Qed.

Lemma partition_some sep s :
  (exists a b, Py.partition sep s = Some (a, b)) <-> occurs sep s.
Proof.
  destruct (Py.partition sep s) as [[a b] |] eqn:P.
  - split; [intros _ | eauto]. apply partition_append in P.
    exists a, b. exact P.
  - apply partition_none in P. split; [| contradiction].
    intros (a & b & H). discriminate.
Qed.

(** *** Indexing and unpacking the pieces of a split *)

Lemma split1_index0 sep s :
  Py.index (Py.split sep 1 s) 0 = Ok (before sep s).
Proof.
  unfold before. simpl. destruct (Py.partition sep s) as [[a b] |]; reflexivity.
Qed.

Lemma split1_index1 sep s :
  Py.index (Py.split sep 1 s) 1
  = match Py.partition sep s with
    | Some (_, b) => Ok b
    | None => Raise IndexError
    end.
Proof. simpl. destruct (Py.partition sep s) as [[a b] |]; reflexivity. Qed.

Lemma split1_unpack sep s :
  Py.unpack2 (Py.split sep 1 s)
  = match Py.partition sep s with
    | Some (a, b) => Ok (a, b)
    | None => Raise ValueError
    end.
Proof. simpl. destruct (Py.partition sep s) as [[a b] |]; reflexivity. Qed.

Lemma split2_index1 sep s :
  Py.index (Py.split sep 2 s) 1
  = match Py.partition sep s with
    | Some (_, b) => Ok (before sep b)
    | None => Raise IndexError
    end.
Proof.
  unfold before. simpl. destruct (Py.partition sep s) as [[a b] |];
    [| reflexivity].
  destruct (Py.partition sep b) as [[a' b'] |]; reflexivity.
Qed.

Lemma rsplit1_unpack sep s :
  Py.unpack2 (Py.rsplit sep 1 s)
  = match Py.partition (Py.reverse sep) (Py.reverse s) with
    | Some (a, b) => Ok (Py.reverse b, Py.reverse a)
    | None => Raise ValueError
    end.
Proof.
  unfold Py.rsplit. simpl.
  destruct (Py.partition (Py.reverse sep) (Py.reverse s)) as [[a b] |];
    reflexivity.
Qed.

(** *** Reversal *)

Lemma rev_string_append acc s :
  Py.rev_string acc s = Py.reverse s +:+ acc.
Proof.
  unfold Py.reverse. revert acc. induction s as [|c s IH]; intros acc.
  - reflexivity.
  - simpl. rewrite (IH (String c acc)), (IH (String c "")).
    rewrite append_assoc. reflexivity.
Qed.

Lemma reverse_cons c s : Py.reverse (String c s) = Py.reverse s +:+ String c "".
Proof. unfold Py.reverse at 1. simpl. apply rev_string_append. Qed.

Lemma reverse_append s t :
  Py.reverse (s +:+ t) = Py.reverse t +:+ Py.reverse s.
Proof.
  induction s as [|c s IH].
  - change ("" +:+ t) with t. rewrite append_nil_r. reflexivity.
  - rewrite append_cons, !reverse_cons, IH, append_assoc. reflexivity.
Qed.

Lemma reverse_involutive s : Py.reverse (Py.reverse s) = s.
Proof.
  induction s as [|c s IH]; [reflexivity |].
  rewrite reverse_cons, reverse_append, IH. reflexivity.
Qed.

Lemma occurs_reverse k s : occurs k s -> occurs (Py.reverse k) (Py.reverse s).
Proof.
  intros (pre & post & ->). exists (Py.reverse post), (Py.reverse pre).
  rewrite !reverse_append, append_assoc. reflexivity.
Qed.

(** The cut of [rsplit(' ', 1)]: at the last space. *)
Lemma rpartition_space s x y :
  Py.partition " " (Py.reverse s) = Some (x, y) ->
  s = Py.reverse y +:+ " " +:+ Py.reverse x
  /\ ~ occurs " " (Py.reverse x).
Proof.
  intros P. split.
  - apply partition_append in P.
    rewrite <- (reverse_involutive s), P, !reverse_append, append_assoc.
    reflexivity.
  - intros Ho. apply occurs_reverse in Ho.
    rewrite reverse_involutive in Ho.
    exact (partition_not_occurs _ _ _ _ _ P Ho).
Qed.

(** ** Platform, continued *)

Lemma platform_eq ua w :
  ua <> "" ->
  Platform.__init__ ua w =
  match Platform.system_info_of ua with
  | Raise e => (w, Raise e)
  | Ok info =>
      if Py.contains "Windows" info then
        match Py.partition " " info with
        | Some (a, b) =>
            (w, Ok {| Platform.type := Some (before ";" info);
                      Platform.os := Some a;
                      Platform.os_version := Some b;
                      Platform.is_mobile := Some false |})
        | None => (w, Raise ValueError)
        end
      else if Py.contains "Macintosh" info then
        match Py.partition "; " info with
        | Some (_, rest) =>
            match Py.partition " " (Py.reverse rest) with
            | Some (x, y) =>
                (w, Ok {| Platform.type := Some "Macintosh";
                          Platform.os := Some (Py.reverse y);
                          Platform.os_version := Some (Py.reverse x);
                          Platform.is_mobile := Some false |})
            | None => (w, Raise ValueError)
            end
        | None => (w, Raise IndexError)
        end
      else if Py.contains "X11" info then
        match Py.partition " " info with
        | Some (_, b) =>
            (w, Ok {| Platform.type := Some "Linux";
                      Platform.os := Some (Py.strip ";" (before " " b));
                      Platform.os_version := Some "";
                      Platform.is_mobile := Some false |})
        | None => (w, Raise IndexError)
        end
      else
        ({| rng := rng w;
            stdout :=
              stdout w
              ++ [Platform.unparseable info +:+ " " +:+ sys_stderr] |},
         Ok {| Platform.type := Some (before " " ua);
               Platform.os := Some ""; Platform.os_version := Some "";
               Platform.is_mobile := Some false |})
  end.
Proof.
  intros Hne. apply len_pos in Hne.
  unfold Platform.__init__. rewrite Hne. unfold bind, lift.
  destruct (Platform.system_info_of ua) as [info | e]; [| reflexivity].
  rewrite ?split1_index0, ?split1_unpack, ?split1_index1, ?split2_index1.
  destruct (Py.contains "Windows" info).
  { destruct (Py.partition " " info) as [[a b] |]; reflexivity. }
  destruct (Py.contains "Macintosh" info).
  { destruct (Py.partition "; " info) as [[a rest] |]; [| reflexivity].
    cbv beta iota. rewrite rsplit1_unpack.
    change (Py.reverse " ") with " ".
    destruct (Py.partition " " (Py.reverse rest)) as [[x y] |]; reflexivity. }
  destruct (Py.contains "X11" info).
  { destruct (Py.partition " " info) as [[a b] |]; reflexivity. }
  reflexivity.
Qed.

Lemma system_info_nonempty ua info :
  Platform.system_info_of ua = Ok info -> ua <> "".
Proof. intros H ->. discriminate H. Qed.

Lemma platform_returns ua w :
  returns (snd (Platform.__init__ ua w)) <-> platform_ok ua.
Proof.
  unfold platform_ok. destruct (decide (ua = "")) as [-> | Hne].
  { rewrite platform_empty. split; [auto | intros _; eexists; reflexivity]. }
  rewrite (platform_eq ua w Hne).
  destruct (Platform.system_info_of ua) as [info | e].
  2: { split; [intros [p H]; discriminate |].
       intros [H | (info & H & _)]; [contradiction | discriminate]. }
  assert (forall P : string -> Prop,
             (ua = "" \/ exists i, Ok info = Ok i /\ P i) <-> P info) as Hx.
  { intros P. split; [| eauto].
    intros [H | (i & H & HP)]; [contradiction |]. injection H as <-. exact HP. }
  rewrite Hx. clear Hx.
  destruct (Py.contains "Windows" info).
  { destruct (Py.partition " " info) as [[a b] |] eqn:P; simpl.
    - split; [intros _ | intros _; eexists; reflexivity].
      apply partition_some. eauto.
    - apply partition_none in P. split; [intros [p H]; discriminate | tauto]. }
  destruct (Py.contains "Macintosh" info).
  { destruct (Py.partition "; " info) as [[a rest] |] eqn:P.
    - destruct (Py.partition " " (Py.reverse rest)) as [[x y] |] eqn:Q; simpl.
      + split; [intros _ | intros _; eexists; reflexivity].
        exists a, rest. split; [reflexivity |].
        apply rpartition_space in Q as [-> _]. eexists _, _. reflexivity.
      + apply partition_none in Q.
        split; [intros [p H]; discriminate |].
        intros (a' & rest' & H & Ho). injection H as <- <-.
        destruct Q. apply (occurs_reverse " " rest), Ho.
    - simpl. split; [intros [p H]; discriminate |].
      intros (a' & rest' & H & _). discriminate. }
  destruct (Py.contains "X11" info).
  { destruct (Py.partition " " info) as [[a b] |] eqn:P; simpl.
    - split; [intros _ | intros _; eexists; reflexivity].
      apply partition_some. eauto.
    - apply partition_none in P. split; [intros [p H]; discriminate | tauto]. }
  simpl. split; [tauto | intros _; eexists; reflexivity].
Qed.

(** ** Identity strings without a family token *)

(** C6, as stated, fails: an identity string with none of the family
    tokens and no parenthesis makes the platform computation raise
    [IndexError], and the exception escapes the parse. *)
Lemma unrecognized_identity_raises :
  (forall k, In k family_tokens -> ~ occurs k curl_ua)
  /\ Platform.__init__ curl_ua quiet = (quiet, Raise IndexError)
  /\ Environment.__init__ curl_ua quiet = (quiet, Raise IndexError).
Proof.
  split; [| split; reflexivity].
  intros k Hk H. apply contains_occurs in H.
  repeat (destruct Hk as [<- | Hk]; [discriminate H |]). destruct Hk.
Qed.

(** C6, amended. For an identity string with none of the family tokens the
    browser computation returns the unknown family with [version = -1],
    [chromium_version = -1] and an empty branding, and raises nothing. The
    platform computation, and with it the whole parse, returns exactly for
    the identity strings of [platform_ok]: the empty string, and the
    strings with a parenthesis whose system information has a space when
    it names Windows; else, when it names Macintosh, has a ["; "] and a
    space after the first one; else, when it names X11, has a space; and is
    anything when it names none of them. A parse that returns has the
    unknown family and the version [-1]. *)
Theorem unrecognized_identity ua w :
  (forall k, In k family_tokens -> ~ occurs k ua) ->
  Browser.__init__ ua w
  = (w, Ok (Browser.set_branding "" (facts Browser.NONE (-1) (-1))))
  /\ (returns (snd (Platform.__init__ ua w)) <-> platform_ok ua)
  /\ (returns (snd (Environment.__init__ ua w)) <-> platform_ok ua)
  /\ (forall w' e,
         Environment.__init__ ua w = (w', Ok e) ->
         Browser.type (Environment.browser e) = Browser.NONE
         /\ Browser.version (Environment.browser e) = -1).
Proof.
  intros Hno.
  assert (Browser.__init__ ua w
          = (w, Ok (Browser.set_branding "" (facts Browser.NONE (-1) (-1)))))
    as B.
  { assert (Browser.detect ua = Ok (facts Browser.NONE (-1) (-1))) as D.
    { rewrite detect_eq.
      rewrite !not_occurs_contains by (apply Hno; simpl; tauto).
      reflexivity. }
    unfold Browser.__init__, bind, lift. rewrite D.
    apply brand_self_other. reflexivity. }
  split; [exact B |]. split; [apply platform_returns |].
  unfold Environment.__init__, bind, ret. rewrite B. cbv beta iota.
  split.
  - rewrite <- (platform_returns ua w).
    destruct (Platform.__init__ ua w) as [w1 [p | x]]; simpl.
    + split; intros _; eexists; reflexivity.
    + split; intros [a H]; discriminate H.
  - intros w' e.
    destruct (Platform.__init__ ua w) as [w1 [p | x]]; cbv beta iota;
      intros H; [| discriminate H].
    injection H as _ <-. split; reflexivity.
Qed.

Lemma unrecognized_identity_witness :
  (forall k, In k family_tokens -> ~ occurs k msie_ua)
  /\ Browser.__init__ msie_ua quiet
     = (quiet, Ok (Browser.set_branding "" (facts Browser.NONE (-1) (-1))))
  /\ platform_ok msie_ua.
Proof.
  assert (forall k, In k family_tokens -> ~ occurs k msie_ua) as H.
  { intros k Hk H. apply contains_occurs in H.
    repeat (destruct Hk as [<- | Hk]; [discriminate H |]). destruct Hk. }
  split; [exact H |].
  destruct (unrecognized_identity msie_ua quiet H) as (E & P & _).
  split; [exact E |].
  apply P. eexists. vm_compute. reflexivity.
Defined.

(** X5. [Platform(ua)] returns exactly for the identity strings of
    [platform_ok]: the empty string, and the strings with a parenthesis
    whose system information can be unpacked, that is, it has a space when
    it names Windows; else, when it names Macintosh, it has a ["; "] and a
    space after the first one; else, when it names X11, it has a space;
    and anything when it names none of them. *)
Theorem platform_returns_iff ua w :
  returns (snd (Platform.__init__ ua w)) <-> platform_ok ua.
Proof. exact (platform_returns ua w). Qed.

Lemma platform_returns_iff_witness :
  ~ platform_ok windows_ua
  /\ Platform.__init__ windows_ua quiet = (quiet, Raise ValueError).
Proof.
  split; [| reflexivity].
  intros H. apply (platform_returns_iff windows_ua quiet) in H.
  destruct H as [p H]. discriminate H.
Defined.

(** X6. When [Platform(ua)] raises, nothing has been printed or drawn, and
    the exception tells the cause: [IndexError] for a string without a
    parenthesis, for Macintosh system information without ["; "] and for
    X11 system information without a space; [ValueError] for Windows system
    information without a space and for Macintosh system information with
    no space after its first ["; "]. *)
Theorem platform_raises ua w w' e :
  Platform.__init__ ua w = (w', Raise e) ->
  w' = w
  /\ ((e = IndexError /\ ~ occurs "(" ua)
      \/ exists info,
           Platform.system_info_of ua = Ok info
           /\ ((e = ValueError /\ Py.contains "Windows" info = true
                /\ ~ occurs " " info)
               \/ (e = IndexError /\ Py.contains "Windows" info = false
                   /\ Py.contains "Macintosh" info = true
                   /\ ~ occurs "; " info)
               \/ (e = ValueError /\ Py.contains "Windows" info = false
                   /\ Py.contains "Macintosh" info = true
                   /\ exists a rest,
                        Py.partition "; " info = Some (a, rest)
                        /\ ~ occurs " " rest)
               \/ (e = IndexError /\ Py.contains "Windows" info = false
                   /\ Py.contains "Macintosh" info = false
                   /\ Py.contains "X11" info = true
                   /\ ~ occurs " " info))).
Proof.
  destruct (decide (ua = "")) as [-> | Hne].
  { rewrite platform_empty. discriminate. }
  rewrite (platform_eq ua w Hne).
  destruct (Platform.system_info_of ua) as [info | e0] eqn:Hi.
  2: { intros H. injection H as <- <-. split; [reflexivity |]. left.
       assert (~ occurs "(" ua) as Hno.
       { intros Ho. apply system_info_returns in Ho as [i Ho]. congruence. }
       split; [| exact Hno].
       unfold Platform.system_info_of in Hi. rewrite split1_index1 in Hi.
       destruct (Py.partition "(" ua) as [[a b] |]; cbn [rbind] in Hi;
         [| congruence].
       rewrite split1_index0 in Hi. discriminate. }
  destruct (Py.contains "Windows" info) eqn:Hw.
  { destruct (Py.partition " " info) as [[a b] |] eqn:P; [discriminate |].
    intros H. injection H as <- <-. split; [reflexivity |]. right.
    exists info. split; [reflexivity |]. left.
    apply partition_none in P. auto. }
  destruct (Py.contains "Macintosh" info) eqn:Hm.
  { destruct (Py.partition "; " info) as [[a rest] |] eqn:P.
    - destruct (Py.partition " " (Py.reverse rest)) as [[x y] |] eqn:Q;
        [discriminate |].
      intros H. injection H as <- <-. split; [reflexivity |]. right.
      exists info. split; [reflexivity |]. right. right. left.
      do 3 (split; [first [reflexivity | assumption] |]).
      exists a, rest. split; [exact P |].
      apply partition_none in Q. intros Ho. destruct Q.
      apply (occurs_reverse " " rest), Ho.
    - intros H. injection H as <- <-. split; [reflexivity |]. right.
      exists info. split; [reflexivity |]. right. left.
      apply partition_none in P. auto. }
  destruct (Py.contains "X11" info) eqn:Hx.
  { destruct (Py.partition " " info) as [[a b] |] eqn:P; [discriminate |].
    intros H. injection H as <- <-. split; [reflexivity |]. right.
    exists info. split; [reflexivity |]. right. right. right.
    apply partition_none in P. auto. }
  discriminate.
Qed.

Lemma platform_raises_witness :
  Platform.__init__ windows_ua quiet = (quiet, Raise ValueError)
  /\ ((ValueError = IndexError /\ ~ occurs "(" windows_ua)
      \/ exists info,
           Platform.system_info_of windows_ua = Ok info
           /\ ((ValueError = ValueError
                /\ Py.contains "Windows" info = true /\ ~ occurs " " info)
               \/ (ValueError = IndexError
                   /\ Py.contains "Windows" info = false
                   /\ Py.contains "Macintosh" info = true
                   /\ ~ occurs "; " info)
               \/ (ValueError = ValueError
                   /\ Py.contains "Windows" info = false
                   /\ Py.contains "Macintosh" info = true
                   /\ exists a rest,
                        Py.partition "; " info = Some (a, rest)
                        /\ ~ occurs " " rest)
               \/ (ValueError = IndexError
                   /\ Py.contains "Windows" info = false
                   /\ Py.contains "Macintosh" info = false
                   /\ Py.contains "X11" info = true
                   /\ ~ occurs " " info))).
Proof.
  assert (Platform.__init__ windows_ua quiet = (quiet, Raise ValueError))
    as E by reflexivity.
  split; [exact E |]. exact (proj2 (platform_raises _ _ _ _ E)).
Defined.

Lemma before_spec c sep s :
  ~ occurs (String c sep) (before (String c sep) s)
  /\ (s = before (String c sep) s
      \/ exists r, s = before (String c sep) s +:+ String c sep +:+ r).
Proof.
  unfold before. destruct (Py.partition (String c sep) s) as [[a b] |] eqn:P.
  - split; [exact (partition_not_occurs _ _ _ _ _ P) |].
    right. exists b. apply partition_append, P.
  - split; [apply partition_none, P | left; reflexivity].
Qed.

Lemma lstrip_head c s t : Py.lstrip c s <> String c t.
Proof.
  induction s as [|a s IH]; simpl; [discriminate |].
  destruct (Ascii.eqb a c) eqn:E; [exact IH |].
  intros H. injection H as -> _. rewrite Ascii.eqb_refl in E. discriminate.
Qed.

Lemma lstrip_suffix c s : exists p, s = p +:+ Py.lstrip c s.
Proof.
  induction s as [|a s [p IH]]; simpl; [exists ""; reflexivity |].
  destruct (Ascii.eqb a c).
  - exists (String a p). rewrite append_cons, <- IH. reflexivity.
  - exists "". reflexivity.
Qed.

(** [strip] leaves no stripped character at either end. *)
Lemma strip_edges c s :
  (forall t, Py.strip c s <> String c t)
  /\ (forall t, Py.strip c s <> t +:+ String c "").
Proof.
  unfold Py.strip.
  set (t1 := Py.lstrip c s). set (t2 := Py.lstrip c (Py.reverse t1)).
  split; intros t H.
  - destruct (lstrip_suffix c (Py.reverse t1)) as [p Hp]. fold t2 in Hp.
    apply (f_equal Py.reverse) in Hp.
    rewrite reverse_involutive, reverse_append, H in Hp.
    exact (lstrip_head c s _ Hp).
  - apply (f_equal Py.reverse) in H.
    rewrite reverse_involutive, reverse_append in H.
    exact (lstrip_head c (Py.reverse t1) _ H).
Qed.

(** X7. For Windows system information the platform type is the text
    before the first [";"], and [os] and [os_version] are the two parts of
    the system information around its first space. *)
Theorem windows_fields ua w w' p info :
  Platform.system_info_of ua = Ok info ->
  Py.contains "Windows" info = true ->
  Platform.__init__ ua w = (w', Ok p) ->
  exists ty a b,
    Platform.type p = Some ty /\ Platform.os p = Some a
    /\ Platform.os_version p = Some b
    /\ info = a +:+ " " +:+ b /\ ~ occurs " " a
    /\ ~ occurs ";" ty
    /\ (info = ty \/ exists r, info = ty +:+ ";" +:+ r).
Proof.
  intros Hi Hw. rewrite (platform_eq ua w (system_info_nonempty _ _ Hi)).
  rewrite Hi, Hw.
  destruct (Py.partition " " info) as [[a b] |] eqn:P; [| discriminate].
  intros H. injection H as _ <-.
  exists (before ";" info), a, b. simpl.
  destruct (before_spec ";" "" info) as [Hn Hd].
  repeat split; try assumption.
  - apply partition_append, P.
  - exact (partition_not_occurs _ _ _ _ _ P).
Qed.

Lemma windows_fields_witness :
  Platform.system_info_of edge_ua = Ok "Windows NT 10.0; Win64; x64"
  /\ Platform.os (value Platform.blank (Platform.__init__ edge_ua quiet))
     = Some "Windows"
  /\ Platform.os_version
       (value Platform.blank (Platform.__init__ edge_ua quiet))
     = Some "NT 10.0; Win64; x64".
Proof.
  assert (Platform.system_info_of edge_ua
          = Ok "Windows NT 10.0; Win64; x64") as Hi by reflexivity.
  split; [exact Hi |].
  destruct (windows_fields edge_ua quiet quiet
              (value Platform.blank (Platform.__init__ edge_ua quiet))
              _ Hi eq_refl eq_refl)
    as (ty & a & b & _ & Ha & Hb & _).
  vm_compute in Ha, Hb. injection Ha as <-. injection Hb as <-.
  split; reflexivity.
Defined.

(** X8. For Macintosh system information the platform type is
    ["Macintosh"], and [os] and [os_version] are the two parts, around its
    last space, of the text after the first ["; "]. *)
Theorem macintosh_fields ua w w' p info :
  Platform.system_info_of ua = Ok info ->
  Py.contains "Windows" info = false ->
  Py.contains "Macintosh" info = true ->
  Platform.__init__ ua w = (w', Ok p) ->
  exists pre rest a b,
    Platform.type p = Some "Macintosh"
    /\ Platform.os p = Some a /\ Platform.os_version p = Some b
    /\ info = pre +:+ "; " +:+ rest /\ ~ occurs "; " pre
    /\ rest = a +:+ " " +:+ b /\ ~ occurs " " b.
Proof.
  intros Hi Hw Hm. rewrite (platform_eq ua w (system_info_nonempty _ _ Hi)).
  rewrite Hi, Hw, Hm.
  destruct (Py.partition "; " info) as [[pre rest] |] eqn:P; [| discriminate].
  destruct (Py.partition " " (Py.reverse rest)) as [[x y] |] eqn:Q;
    [| discriminate].
  intros H. injection H as _ <-.
  exists pre, rest, (Py.reverse y), (Py.reverse x). simpl.
  destruct (rpartition_space rest x y Q) as [Hr Hn].
  repeat split; try assumption.
  - apply partition_append, P.
  - exact (partition_not_occurs _ _ _ _ _ P).
Qed.

Lemma macintosh_fields_witness :
  Platform.system_info_of mac_ua = Ok "Macintosh; Intel Mac OS X 10_15_7"
  /\ Platform.os (value Platform.blank (Platform.__init__ mac_ua quiet))
     = Some "Intel Mac OS X"
  /\ Platform.os_version
       (value Platform.blank (Platform.__init__ mac_ua quiet))
     = Some "10_15_7".
Proof.
  assert (Platform.system_info_of mac_ua
          = Ok "Macintosh; Intel Mac OS X 10_15_7") as Hi by reflexivity.
  split; [exact Hi |].
  destruct (macintosh_fields mac_ua quiet quiet
              (value Platform.blank (Platform.__init__ mac_ua quiet))
              _ Hi eq_refl eq_refl eq_refl)
    as (pre & rest & a & b & _ & Ha & Hb & _).
  vm_compute in Ha, Hb. injection Ha as <-. injection Hb as <-.
  split; reflexivity.
Defined.

(** X9. For X11 system information the platform type is ["Linux"],
    [os_version] stays empty, and [os] is the second space-delimited word
    of the system information with the [";"] at its ends removed. *)
Theorem linux_fields ua w w' p info :
  Platform.system_info_of ua = Ok info ->
  Py.contains "Windows" info = false ->
  Py.contains "Macintosh" info = false ->
  Py.contains "X11" info = true ->
  Platform.__init__ ua w = (w', Ok p) ->
  exists first rest name,
    Platform.type p = Some "Linux"
    /\ Platform.os_version p = Some ""
    /\ Platform.os p = Some name
    /\ info = first +:+ " " +:+ rest /\ ~ occurs " " first
    /\ name = Py.strip ";" (before " " rest)
    /\ (forall t, name <> String ";" t)
    /\ (forall t, name <> t +:+ ";").
Proof.
  intros Hi Hw Hm Hx. rewrite (platform_eq ua w (system_info_nonempty _ _ Hi)).
  rewrite Hi, Hw, Hm, Hx.
  destruct (Py.partition " " info) as [[first rest] |] eqn:P; [| discriminate].
  intros H. injection H as _ <-.
  exists first, rest, (Py.strip ";" (before " " rest)). simpl.
  destruct (strip_edges ";" (before " " rest)) as [Hs He].
  repeat split; try assumption.
  - apply partition_append, P.
  - exact (partition_not_occurs _ _ _ _ _ P).
Qed.

Lemma linux_fields_witness :
  Platform.system_info_of linux_ua
  = Ok "X11; Ubuntu; Linux x86_64; rv:109.0"
  /\ Platform.os (value Platform.blank (Platform.__init__ linux_ua quiet))
     = Some "Ubuntu".
Proof.
  assert (Platform.system_info_of linux_ua
          = Ok "X11; Ubuntu; Linux x86_64; rv:109.0") as Hi by reflexivity.
  split; [exact Hi |].
  destruct (linux_fields linux_ua quiet quiet
              (value Platform.blank (Platform.__init__ linux_ua quiet))
              _ Hi eq_refl eq_refl eq_refl eq_refl)
    as (first & rest & name & _ & _ & Hn & _).
  vm_compute in Hn. injection Hn as <-. reflexivity.
Defined.

(** X10. [Platform(ua)] never uses the random source, and writes at most
    one line to standard output. The line is a message, one space and the
    text of the standard error stream object, which [print] receives as a
    second value to write: the empty-string message for the empty identity
    string, the unparseable message when the system information names none
    of Windows, Macintosh and X11. In every other case nothing is written,
    whether the parse returns or raises. *)
Theorem platform_output ua w w' r :
  Platform.__init__ ua w = (w', r) ->
  rng w' = rng w
  /\ stdout w'
     = (stdout w
        ++ (if decide (ua = "")
            then [Platform.empty_message +:+ " " +:+ sys_stderr]
            else match Platform.system_info_of ua with
                 | Ok info =>
                     if Py.contains "Windows" info
                        || Py.contains "Macintosh" info
                        || Py.contains "X11" info
                     then []
                     else [Platform.unparseable info +:+ " " +:+ sys_stderr]
                 | Raise _ => []
                 end))%list.
Proof.
  destruct (decide (ua = "")) as [-> | Hne].
  { rewrite platform_empty. intros H. injection H as <- _. auto. }
  rewrite (platform_eq ua w Hne).
  destruct (Platform.system_info_of ua) as [info | e].
  2: { intros H. injection H as <- _. rewrite app_nil_r. auto. }
  destruct (Py.contains "Windows" info); simpl.
  { destruct (Py.partition " " info) as [[a b] |];
      intros H; injection H as <- _; rewrite app_nil_r; auto. }
  destruct (Py.contains "Macintosh" info); simpl.
  { destruct (Py.partition "; " info) as [[a rest] |];
      [destruct (Py.partition " " (Py.reverse rest)) as [[x y] |] |];
      intros H; injection H as <- _; rewrite app_nil_r; auto. }
  destruct (Py.contains "X11" info); simpl.
  { destruct (Py.partition " " info) as [[a b] |];
      intros H; injection H as <- _; rewrite app_nil_r; auto. }
  intros H. injection H as <- _. auto.
Qed.

Lemma platform_output_witness :
  Platform.__init__ beos_ua quiet
  = (fst (Platform.__init__ beos_ua quiet),
     snd (Platform.__init__ beos_ua quiet))
  /\ stdout (fst (Platform.__init__ beos_ua quiet))
     = [Platform.unparseable "BeOS; I" +:+ " " +:+ sys_stderr].
Proof.
  assert (Platform.__init__ beos_ua quiet
          = (fst (Platform.__init__ beos_ua quiet),
             snd (Platform.__init__ beos_ua quiet))) as E by reflexivity.
  split; [exact E |].
  destruct (platform_output _ _ _ _ E) as [_ H]. rewrite H. reflexivity.
Defined.

(** ** Environment *)

(** X11. A session can be built from an identity string exactly when every
    version field that the browser parse reads is an integer and the
    platform parse returns on that string. *)
Theorem session_returns_iff ua w :
  returns (snd (Environment.__init__ ua w))
  <-> (forall k, In k (examined ua) -> returns (field ua k))
      /\ platform_ok ua.
Proof.
  unfold Environment.__init__.
  destruct (detect_outcome ua) as [(self & D & Hall) | (D & k & Hk & Hn)].
  - destruct (init_ok ua self w D) as (w1 & s & E & _).
    rewrite (bind_ok _ _ _ _ _ E). unfold bind, ret.
    pose proof (platform_returns ua w1) as Hp.
    destruct (Platform.__init__ ua w1) as [w2 [p | e]]; simpl in *.
    + split; [intros _; split; [exact Hall | apply Hp; eexists; reflexivity]
             | intros _; eexists; reflexivity].
    + split; [intros [x H]; discriminate |].
      intros [_ H]. apply Hp in H as [x H]. discriminate.
  - unfold bind at 1. rewrite (init_raise ua _ w D). simpl.
    split; [intros [x H]; discriminate |].
    intros [Hall _]. destruct Hn. apply Hall, Hk.
Qed.

Lemma session_returns_iff_witness :
  returns (snd (Environment.__init__ edge_ua quiet))
  /\ platform_ok edge_ua.
Proof.
  assert (returns (snd (Environment.__init__ edge_ua quiet))) as H
    by (eexists; vm_compute; reflexivity).
  split; [exact H |].
  apply (session_returns_iff edge_ua quiet) in H. apply H.
Defined.

(** ** The headers, continued *)

Lemma headers_block_session ua w w' env (h : gmap string string) :
  Environment.__init__ ua w = (w', Ok env) ->
  exists h',
    MaskedMiner.mask_headers env h = Ok h'
    /\ Miners.headers_block env h = (h', Ok tt)
    /\ h' = if Browser.uses_chromium (Environment.browser env) then
              match Browser.branding (Environment.browser env),
                    Platform.type (Environment.platform env) with
              | Some branding, Some ty =>
                  chromium_headers branding ty (base_headers ua h)
              | _, _ => h
              end
            else MaskedMiner.strip_sec
                   (MaskedMiner.keys (base_headers ua h)) (base_headers ua h).
Proof.
  intros E. destruct (session_attrs ua w w' env E) as (Hua & Ha).
  unfold MaskedMiner.mask_headers, Miners.headers_block. rewrite Hua.
  destruct (Browser.uses_chromium (Environment.browser env)).
  - destruct Ha as (branding & ty & Hb & Hm & Hty).
    rewrite Hb, Hm, Hty. eexists. repeat split; reflexivity.
  - eexists. repeat split; reflexivity.
Qed.

Lemma is_Some_setdefault k0 v (h : gmap string string) k :
  is_Some (MaskedMiner.setdefault k0 v h !! k) <-> is_Some (h !! k) \/ k0 = k.
Proof.
  rewrite lookup_setdefault. destruct (h !! k) as [x |].
  - split; [intros _; left; eauto | eauto].
  - case_decide.
    + split; [intros _; right; assumption | eauto].
    + split; [intros [x Hx]; discriminate |].
      intros [[x Hx] | Hk]; [discriminate | contradiction].
Qed.

(** X12. The header block adds no key but its own and removes none but
    the [sec-] ones: a key is present afterwards exactly when it was
    present before or is one the block sets by default (three for every
    session, three more for a Chromium one), and, for a session that is not
    Chromium-based, its lower-cased name does not start with [sec-]. *)
Theorem header_keys ua w w' env (h h' : gmap string string) k :
  Environment.__init__ ua w = (w', Ok env) ->
  MaskedMiner.mask_headers env h = Ok h' ->
  is_Some (h' !! k)
  <-> (is_Some (h !! k)
       \/ In k (policy_keys (Browser.uses_chromium (Environment.browser env))))
      /\ (Browser.uses_chromium (Environment.browser env) = true
          \/ MaskedMiner.is_sec k = false).
Proof.
  intros E Hm. pose proof (mask_headers_eq ua w w' env h E) as H.
  destruct (Browser.uses_chromium (Environment.browser env)).
  - destruct H as (branding & ty & _ & _ & H).
    rewrite H in Hm. injection Hm as <-.
    unfold chromium_headers, base_headers. rewrite !is_Some_setdefault.
    unfold policy_keys. cbn [app In]. tauto.
  - rewrite H in Hm. injection Hm as <-. rewrite lookup_strip_keys.
    destruct (MaskedMiner.is_sec k).
    + split; [intros [x Hx]; discriminate |].
      intros [_ [Hc | Hc]]; discriminate.
    + unfold base_headers. rewrite !is_Some_setdefault.
      unfold policy_keys. cbn [app In]. tauto.
Qed.

Lemma header_keys_witness :
  Environment.__init__ firefox_ua quiet = (quiet, Ok (session firefox_ua))
  /\ exists h',
       MaskedMiner.mask_headers (session firefox_ua)
         {[ "Sec-Fetch-Site" := "none" ]} = Ok h'
       /\ ~ is_Some (h' !! "Sec-Fetch-Site")
       /\ is_Some (h' !! "dnt").
Proof.
  assert (Environment.__init__ firefox_ua quiet
          = (quiet, Ok (session firefox_ua))) as E by reflexivity.
  split; [exact E |].
  destruct (headers_block_session firefox_ua quiet quiet _
              {[ "Sec-Fetch-Site" := "none" ]} E) as (h' & Hm & _).
  exists h'. split; [exact Hm |]. split.
  - intros Hs. apply (header_keys _ _ _ _ _ _ _ E Hm) in Hs.
    destruct Hs as [_ [Hc | Hc]]; vm_compute in Hc; discriminate.
  - apply (header_keys _ _ _ _ _ _ _ E Hm).
    split; [right; vm_compute; tauto | right; vm_compute; reflexivity].
Defined.

Lemma lower_char_s a :
  Ascii.eqb "s" (Py.lower_char a) = (Ascii.eqb a "s" || Ascii.eqb a "S").
Proof. destruct a as [[] [] [] [] [] [] [] []]; reflexivity. Qed.

Lemma lower_char_e a :
  Ascii.eqb "e" (Py.lower_char a) = (Ascii.eqb a "e" || Ascii.eqb a "E").
Proof. destruct a as [[] [] [] [] [] [] [] []]; reflexivity. Qed.

Lemma lower_char_c a :
  Ascii.eqb "c" (Py.lower_char a) = (Ascii.eqb a "c" || Ascii.eqb a "C").
Proof. destruct a as [[] [] [] [] [] [] [] []]; reflexivity. Qed.

Lemma lower_char_dash a :
  Ascii.eqb "-" (Py.lower_char a) = Ascii.eqb a "-".
Proof. destruct a as [[] [] [] [] [] [] [] []]; reflexivity. Qed.

(** X13. The headers that a session that is not Chromium-based loses are
    exactly those whose name begins with [s] or [S], then [e] or [E], then
    [c] or [C], then [-]. *)
Theorem is_sec_iff k :
  MaskedMiner.is_sec k = true
  <-> exists a b c rest,
        k = String a (String b (String c (String "-" rest)))
        /\ (a = "s" \/ a = "S")%char
        /\ (b = "e" \/ b = "E")%char
        /\ (c = "c" \/ c = "C")%char.
Proof.
  unfold MaskedMiner.is_sec.
  destruct k as [|a [|b [|c [|d rest]]]]; cbn [Py.lower Py.startswith];
    rewrite ?andb_false_r;
    try (split; [discriminate | intros (? & ? & ? & ? & H & _); discriminate]).
  rewrite lower_char_s, lower_char_e, lower_char_c, lower_char_dash.
  rewrite !andb_true_iff, !orb_true_iff, !Ascii.eqb_eq. split.
  - intros (Ha & Hb & Hc & Hd & _). subst d. exists a, b, c, rest. tauto.
  - intros (a' & b' & c' & rest' & H & Ha & Hb & Hc).
    injection H as -> -> -> -> ->. tauto.
Qed.

(** The miners of a constructor: what it hands on, whatever the defaults. *)
Lemma headers_block_eq ua w w' env (h : gmap string string) :
  Environment.__init__ ua w = (w', Ok env) ->
  exists h',
    MaskedMiner.mask_headers env h = Ok h'
    /\ Miners.headers_block env h = (h', Ok tt).
Proof.
  intros E. destruct (headers_block_session ua w w' env h E) as (h' & H1 & H2 & _).
  eauto.
Qed.

(** X14. A JSON miner and an HTML miner put [accept] (["application/json"]
    or ["text/html"]) and [accept-encoding] (["gzip, deflate, br"]) into the
    headers they were given, unless the caller had set them, before the
    headers of the session are added; both keys are present in what is
    handed on, for every session, and the defaults are left alone. *)
Theorem typed_miner_headers ua w w' env (h : gmap string string) d :
  Environment.__init__ ua w = (w', Ok env) ->
  (exists hj,
      Miners.MaskedMinerJSON_init env (Some h) d = (hj, d, Ok tt)
      /\ MaskedMiner.mask_headers env (Miners.json_accept h) = Ok hj
      /\ hj !! "accept" = Some (default "application/json" (h !! "accept"))
      /\ hj !! "accept-encoding"
         = Some (default "gzip, deflate, br" (h !! "accept-encoding")))
  /\ (exists hl,
         Miners.MaskedMinerLXML_init env (Some h) d = (hl, d, Ok tt)
         /\ MaskedMiner.mask_headers env (Miners.lxml_accept h) = Ok hl
         /\ hl !! "accept" = Some (default "text/html" (h !! "accept"))
         /\ hl !! "accept-encoding"
            = Some (default "gzip, deflate, br" (h !! "accept-encoding"))).
Proof.
  intros E. split.
  - destruct (headers_block_eq ua w w' env (Miners.json_accept h) E)
      as (hj & Hm & Hb).
    exists hj. unfold Miners.MaskedMinerJSON_init. rewrite Hb.
    split; [reflexivity |]. split; [exact Hm |].
    pose proof (mask_headers_eq ua w w' env (Miners.json_accept h) E) as H.
    destruct (Browser.uses_chromium (Environment.browser env)).
    + destruct H as (branding & ty & _ & _ & H). rewrite H in Hm.
      injection Hm as <-. unfold Miners.json_accept. lookup_headers.
      split; [destruct (h !! "accept") | destruct (h !! "accept-encoding")];
        reflexivity.
    + rewrite H in Hm. injection Hm as <-.
      unfold Miners.json_accept. lookup_headers.
      split; [destruct (h !! "accept") | destruct (h !! "accept-encoding")];
        reflexivity.
  - destruct (headers_block_eq ua w w' env (Miners.lxml_accept h) E)
      as (hl & Hm & Hb).
    exists hl. unfold Miners.MaskedMinerLXML_init. rewrite Hb.
    split; [reflexivity |]. split; [exact Hm |].
    pose proof (mask_headers_eq ua w w' env (Miners.lxml_accept h) E) as H.
    destruct (Browser.uses_chromium (Environment.browser env)).
    + destruct H as (branding & ty & _ & _ & H). rewrite H in Hm.
      injection Hm as <-. unfold Miners.lxml_accept. lookup_headers.
      split; [destruct (h !! "accept") | destruct (h !! "accept-encoding")];
        reflexivity.
    + rewrite H in Hm. injection Hm as <-.
      unfold Miners.lxml_accept. lookup_headers.
      split; [destruct (h !! "accept") | destruct (h !! "accept-encoding")];
        reflexivity.
Qed.

Lemma typed_miner_headers_witness :
  Environment.__init__ firefox_ua quiet = (quiet, Ok (session firefox_ua))
  /\ exists hj,
       Miners.MaskedMinerJSON_init (session firefox_ua) (Some ∅) Miners.fresh
       = (hj, Miners.fresh, Ok tt)
       /\ hj !! "accept" = Some "application/json".
Proof.
  assert (Environment.__init__ firefox_ua quiet
          = (quiet, Ok (session firefox_ua))) as E by reflexivity.
  split; [exact E |].
  destruct (typed_miner_headers firefox_ua quiet quiet _ ∅ Miners.fresh E)
    as ((hj & Hi & _ & Ha & _) & _).
  exists hj. split; [exact Hi |]. rewrite Ha, lookup_empty. reflexivity.
Defined.

(** The block of one session applied to the result of another. *)
Lemma block_after_block ua1 w1 w1' env1 ua2 w2 w2' env2
    (h h1 h2 : gmap string string) :
  Environment.__init__ ua1 w1 = (w1', Ok env1) ->
  Environment.__init__ ua2 w2 = (w2', Ok env2) ->
  MaskedMiner.mask_headers env1 h = Ok h1 ->
  MaskedMiner.mask_headers env2 h1 = Ok h2 ->
  h2 !! "user-agent" = h1 !! "user-agent"
  /\ h1 !! "user-agent" = Some (default ua1 (h !! "user-agent"))
  /\ (Browser.uses_chromium (Environment.browser env1)
      = Browser.uses_chromium (Environment.browser env2) -> h2 = h1).
Proof.
  intros E1 E2 H1 H2.
  pose proof (mask_headers_eq ua1 w1 w1' env1 h E1) as F1.
  pose proof (mask_headers_eq ua2 w2 w2' env2 h1 E2) as F2.
  destruct (Browser.uses_chromium (Environment.browser env1));
    destruct (Browser.uses_chromium (Environment.browser env2)).
  - destruct F1 as (br1 & ty1 & _ & _ & F1).
    destruct F2 as (br2 & ty2 & _ & _ & F2).
    rewrite F1 in H1. injection H1 as <-.
    rewrite F2 in H2. injection H2 as <-.
    split; [| split].
    + lookup_headers. destruct (h !! "user-agent"); reflexivity.
    + lookup_headers. destruct (h !! "user-agent"); reflexivity.
    + intros _. apply map_eq. intros k. lookup_headers.
      destruct (h !! k); [reflexivity |].
      repeat (case_decide; try reflexivity).
  - destruct F1 as (br1 & ty1 & _ & _ & F1).
    rewrite F1 in H1. injection H1 as <-.
    rewrite F2 in H2. injection H2 as <-.
    split; [| split; [| discriminate]].
    + lookup_headers. destruct (h !! "user-agent"); reflexivity.
    + lookup_headers. destruct (h !! "user-agent"); reflexivity.
  - destruct F2 as (br2 & ty2 & _ & _ & F2).
    rewrite F1 in H1. injection H1 as <-.
    rewrite F2 in H2. injection H2 as <-.
    split; [| split; [| discriminate]].
    + lookup_headers. destruct (h !! "user-agent"); reflexivity.
    + lookup_headers. destruct (h !! "user-agent"); reflexivity.
  - rewrite F1 in H1. injection H1 as <-.
    rewrite F2 in H2. injection H2 as <-.
    set (h1 := MaskedMiner.strip_sec
                 (MaskedMiner.keys (base_headers ua1 h)) (base_headers ua1 h)).
    assert (forall k, MaskedMiner.is_sec k = true -> h1 !! k = None) as Hc.
    { intros k Hs. unfold h1. rewrite lookup_strip_keys, Hs. reflexivity. }
    assert (base_headers ua2 h1 = h1) as Hb.
    { unfold base_headers.
      rewrite !setdefault_present; [reflexivity | ..];
        unfold h1; lookup_headers; simpl; repeat case_match; eauto. }
    split; [| split].
    + rewrite Hb, (strip_keys_clean h1 Hc). reflexivity.
    + unfold h1. lookup_headers. destruct (h !! "user-agent"); reflexivity.
    + intros _. rewrite Hb. apply strip_keys_clean, Hc.
Qed.

(** X15. The headers of a miner built without a [headers] argument live in
    the one default dict of [MaskedMiner.__init__]: after a first miner has
    been built that way from fresh defaults, a second miner built that way
    carries the identity string of the first session as [user-agent],
    whatever its own session is; when both sessions are of Chromium
    browsers, or both are not, the second miner's headers are those of the
    first, entry for entry. *)
Theorem shared_default_headers ua1 w1 w1' env1 ua2 w2 w2' env2 d :
  Environment.__init__ ua1 w1 = (w1', Ok env1) ->
  Environment.__init__ ua2 w2 = (w2', Ok env2) ->
  Miners.miner_default d = ∅ ->
  exists h1 d1 h2 d2,
    Miners.MaskedMiner_init env1 None d = (h1, d1, Ok tt)
    /\ Miners.MaskedMiner_init env2 None d1 = (h2, d2, Ok tt)
    /\ Miners.miner_default d2 = h2
    /\ h1 !! "user-agent" = Some ua1
    /\ h2 !! "user-agent" = Some ua1
    /\ (Browser.uses_chromium (Environment.browser env1)
        = Browser.uses_chromium (Environment.browser env2) -> h2 = h1).
Proof.
  intros E1 E2 Hd.
  destruct (headers_block_eq ua1 w1 w1' env1 ∅ E1) as (h1 & M1 & B1).
  destruct (headers_block_eq ua2 w2 w2' env2 h1 E2) as (h2 & M2 & B2).
  destruct (block_after_block _ _ _ _ _ _ _ _ _ _ _ E1 E2 M1 M2)
    as (Hsame & Hua & Heq).
  rewrite lookup_empty in Hua. simpl in Hua.
  exists h1,
    {| Miners.miner_default := h1;
       Miners.json_default := Miners.json_default d;
       Miners.lxml_default := Miners.lxml_default d |},
    h2,
    {| Miners.miner_default := h2;
       Miners.json_default := Miners.json_default d;
       Miners.lxml_default := Miners.lxml_default d |}.
  unfold Miners.MaskedMiner_init. cbn [Miners.miner_default].
  rewrite Hd, B1, B2.
  split; [reflexivity |]. split; [reflexivity |]. split; [reflexivity |].
  split; [exact Hua |]. split; [congruence | exact Heq].
Qed.

Lemma shared_default_headers_witness :
  Environment.__init__ firefox_ua quiet = (quiet, Ok (session firefox_ua))
  /\ returns (snd (Environment.__init__ edge_ua quiet))
  /\ exists h1 d1 h2 d2,
       Miners.MaskedMiner_init (session firefox_ua) None Miners.fresh
       = (h1, d1, Ok tt)
       /\ Miners.MaskedMiner_init (session edge_ua) None d1 = (h2, d2, Ok tt)
       /\ h2 !! "user-agent" = Some firefox_ua.
Proof.
  assert (Environment.__init__ firefox_ua quiet
          = (quiet, Ok (session firefox_ua))) as E1 by reflexivity.
  assert (Environment.__init__ edge_ua quiet
          = (fst (Environment.__init__ edge_ua quiet),
             Ok (session edge_ua))) as E2 by (vm_compute; reflexivity).
  split; [exact E1 |].
  split; [exists (session edge_ua); rewrite E2; reflexivity |].
  destruct (shared_default_headers _ _ _ _ _ _ _ _ Miners.fresh E1 E2 eq_refl)
    as (h1 & d1 & h2 & d2 & I1 & I2 & _ & _ & Hua & _).
  exists h1, d1, h2, d2. auto.
Defined.

(** ** UserAgentMiner *)

Lemma pick_eq data_str :
  UserAgentMiner.pick data_str =
  match Py.partition json_heading data_str with
  | Some (_, a) =>
      match Py.partition textarea_open a with
      | Some (_, b) =>
          match Py.partition ">" b with
          | Some (_, c) => Ok (before textarea_close c)
          | None => Raise IndexError
          end
      | None => Raise IndexError
      end
  | None => Raise IndexError
  end.
Proof.
  unfold UserAgentMiner.pick, json_heading, textarea_open, textarea_close.
  rewrite split1_index1.
  destruct (Py.partition "<h3>JSON</h3>" data_str) as [[p a] |];
    [| reflexivity].
  cbn [rbind]. rewrite split1_index1.
  destruct (Py.partition "<textarea" a) as [[m b] |]; [| reflexivity].
  cbn [rbind]. rewrite split1_index1.
  destruct (Py.partition ">" b) as [[t c] |]; [| reflexivity].
  cbn [rbind]. apply split1_index0.
Qed.

(** X16. When [handle_chunked] returns, the text it has taken is what
    follows, in the response, the first [<h3>JSON</h3>], then the first
    [<textarea] after it, then the first [>] after that, up to the next
    [</textarea>] or, without one, to the end of the response; that text
    is now the content of the miner's file and the last item of the
    miner, and nothing was written to the error stream. *)
Theorem chunked_returns self data_str st self' st' :
  UserAgentMiner.handle_chunked self data_str st
  = (self', st', UserAgentMiner.Returned) ->
  exists pre mid attrs json_str tail,
    data_str = pre +:+ json_heading +:+ mid +:+ textarea_open +:+ attrs
                 +:+ ">" +:+ json_str +:+ tail
    /\ ~ occurs json_heading pre
    /\ ~ occurs textarea_open mid
    /\ ~ occurs ">" attrs
    /\ ~ occurs textarea_close json_str
    /\ (tail = "" \/ exists post, tail = textarea_close +:+ post)
    /\ UserAgentMiner.files st'
       = <[UserAgentMiner.filename self := json_str]>
           (UserAgentMiner.files st)
    /\ UserAgentMiner.stderr st' = UserAgentMiner.stderr st
    /\ UserAgentMiner.items self'
       = (UserAgentMiner.items self ++ [json_str])%list
    /\ UserAgentMiner.filename self' = UserAgentMiner.filename self.
Proof.
  unfold UserAgentMiner.handle_chunked. rewrite pick_eq.
  destruct (Py.partition json_heading data_str) as [[pre a] |] eqn:P1;
    [| discriminate].
  destruct (Py.partition textarea_open a) as [[mid b] |] eqn:P2;
    [| discriminate].
  destruct (Py.partition ">" b) as [[attrs c] |] eqn:P3; [| discriminate].
  intros H. injection H as <- <-.
  destruct (before_spec "<" "/textarea>" c) as [Hn Hd].
  fold textarea_close in Hn, Hd.
  exists pre, mid, attrs, (before textarea_close c).
  exists (match Py.partition textarea_close c with
          | Some (_, post) => textarea_close +:+ post
          | None => ""
          end).
  split; [| repeat split].
  - rewrite (partition_append _ _ _ _ P1), (partition_append _ _ _ _ P2),
      (partition_append _ _ _ _ P3).
    do 6 f_equal. unfold before.
    destruct (Py.partition textarea_close c) as [[j post] |] eqn:P4.
    + apply partition_append, P4.
    + symmetry. apply append_nil_r.
  - exact (partition_not_occurs _ _ _ _ _ P1).
  - exact (partition_not_occurs _ _ _ _ _ P2).
  - exact (partition_not_occurs _ _ _ _ _ P3).
  - exact Hn.
  - destruct (Py.partition textarea_close c) as [[j post] |]; eauto.
Qed.

Lemma chunked_returns_witness :
  UserAgentMiner.handle_chunked
    {| UserAgentMiner.filename := "user-agent.json";
       UserAgentMiner.items := [] |}
    chunked_page
    {| UserAgentMiner.files := ∅; UserAgentMiner.stderr := [] |}
  = ({| UserAgentMiner.filename := "user-agent.json";
        UserAgentMiner.items := ["[{}]"] |},
     {| UserAgentMiner.files := {[ "user-agent.json" := "[{}]" ]};
        UserAgentMiner.stderr := [] |},
     UserAgentMiner.Returned)
  /\ exists json_str,
       ({[ "user-agent.json" := "[{}]" ]} : gmap string string)
       = <["user-agent.json" := json_str]> ∅
       /\ ~ occurs textarea_close json_str.
Proof.
  assert (UserAgentMiner.handle_chunked
            {| UserAgentMiner.filename := "user-agent.json";
               UserAgentMiner.items := [] |}
            chunked_page
            {| UserAgentMiner.files := ∅; UserAgentMiner.stderr := [] |}
          = ({| UserAgentMiner.filename := "user-agent.json";
                UserAgentMiner.items := ["[{}]"] |},
             {| UserAgentMiner.files := {[ "user-agent.json" := "[{}]" ]};
                UserAgentMiner.stderr := [] |},
             UserAgentMiner.Returned)) as E by reflexivity.
  split; [exact E |].
  destruct (chunked_returns _ _ _ _ _ E)
    as (pre & mid & attrs & j & tail & _ & _ & _ & _ & Hn & _ & Hf & _).
  exists j. split; [exact Hf | exact Hn].
Defined.

Lemma append_length s t :
  String.length (s +:+ t) = (String.length s + String.length t)%nat.
Proof.
  induction s as [|c s IH]; [reflexivity |].
  rewrite append_cons. simpl. rewrite IH. reflexivity.
Qed.

Lemma length_zero s : String.length s = O -> s = "".
Proof. destruct s; [reflexivity | discriminate]. Qed.

Lemma append_split x y x' y' :
  x +:+ y = x' +:+ y' ->
  (String.length x <= String.length x')%nat ->
  exists u, x' = x +:+ u /\ y = u +:+ y'.
Proof.
  revert x'. induction x as [|c x IH]; intros x' H Hl.
  - exists x'. split; [reflexivity | exact H].
  - destruct x' as [|c' x']; [simpl in Hl; lia |].
    rewrite !append_cons in H. injection H as <- H.
    destruct (IH x' H) as (u & -> & ->); [simpl in Hl; lia |].
    exists u. split; reflexivity.
Qed.

(** The cut of [partition] is at the first occurrence. *)
Lemma partition_minimal sep s a b pre post :
  Py.partition sep s = Some (a, b) ->
  s = pre +:+ sep +:+ post ->
  (String.length a <= String.length pre)%nat.
Proof.
  revert a pre. induction s as [|c s IH]; intros a pre;
    rewrite partition_unfold; destruct (Py.startswith sep _) eqn:E.
  - intros H. injection H as <- _. simpl. lia.
  - discriminate.
  - intros H. injection H as <- _. simpl. lia.
  - destruct (Py.partition sep s) as [[a' b'] |] eqn:P; [| discriminate].
    intros H Hs. injection H as <- <-.
    destruct pre as [|c' pre].
    + assert (Py.startswith sep (String c s) = true) as E'
        by (apply startswith_iff; exists post; exact Hs).
      congruence.
    + rewrite append_cons in Hs. injection Hs as _ Hs.
      specialize (IH a' pre eq_refl Hs). simpl. lia.
Qed.

Lemma partition_after sep s a b pre post :
  Py.partition sep s = Some (a, b) ->
  s = pre +:+ sep +:+ post ->
  exists u v, pre = a +:+ u /\ u +:+ sep = sep +:+ v /\ b = v +:+ post.
Proof.
  intros P Hs. pose proof (partition_minimal _ _ _ _ _ _ P Hs) as Hl.
  apply partition_append in P. rewrite P in Hs.
  destruct (append_split _ _ _ _ Hs Hl) as (u & -> & H).
  rewrite <- append_assoc in H.
  destruct (append_split sep b (u +:+ sep) post H) as (v & Hv & ->).
  { rewrite append_length. lia. }
  exists u, v. auto.
Qed.

Lemma occurs_after sep s a b pre post k :
  Py.partition sep s = Some (a, b) ->
  s = pre +:+ sep +:+ post ->
  occurs k post -> occurs k b.
Proof.
  intros P Hs (x & y & ->).
  destruct (partition_after _ _ _ _ _ _ P Hs) as (u & v & _ & _ & ->).
  exists (v +:+ x), y. rewrite append_assoc. reflexivity.
Qed.

Lemma partition_first_at sep pre post :
  first_at sep pre ->
  Py.partition sep (pre +:+ sep +:+ post) = Some (pre, post).
Proof.
  intros Hf.
  destruct (Py.partition sep (pre +:+ sep +:+ post)) as [[a b] |] eqn:P.
  - destruct (partition_after _ _ _ _ _ _ P eq_refl)
      as (u & v & Hp & Hu & ->).
    assert (v = "") as ->.
    { apply (Hf a v). rewrite Hp, append_assoc, Hu. reflexivity. }
    assert (u = "") as ->.
    { apply length_zero. apply (f_equal String.length) in Hu.
      rewrite !append_length in Hu. simpl in Hu. lia. }
    rewrite append_nil_r in Hp. subst a. reflexivity.
  - apply partition_none in P. destruct P. exists pre, post. reflexivity.
Qed.

Lemma first_at_partition sep pre :
  Py.partition sep (pre +:+ sep) = Some (pre, "") -> first_at sep pre.
Proof.
  intros P u v H.
  pose proof (partition_minimal _ _ _ _ _ _ P H) as Hl.
  apply (f_equal String.length) in H. rewrite !append_length in H.
  apply length_zero. lia.
Qed.

(** What the response must look like for [pick] to find a text. *)
Lemma pick_returns_iff data_str :
  returns (UserAgentMiner.pick data_str)
  <-> exists pre mid attrs rest,
        data_str = pre +:+ json_heading +:+ mid +:+ textarea_open +:+ attrs
                     +:+ ">" +:+ rest.
Proof.
  rewrite pick_eq. split.
  - destruct (Py.partition json_heading data_str) as [[pre a] |] eqn:P1;
      [| intros [x H]; discriminate].
    destruct (Py.partition textarea_open a) as [[mid b] |] eqn:P2;
      [| intros [x H]; discriminate].
    destruct (Py.partition ">" b) as [[attrs c] |] eqn:P3;
      [| intros [x H]; discriminate].
    intros _. exists pre, mid, attrs, c.
    rewrite (partition_append _ _ _ _ P1), (partition_append _ _ _ _ P2),
      (partition_append _ _ _ _ P3). reflexivity.
  - intros (pre & mid & attrs & rest & Hd).
    destruct (Py.partition json_heading data_str) as [[p a] |] eqn:P1.
    2: { apply partition_none in P1. destruct P1. eexists _, _. exact Hd. }
    assert (occurs textarea_open a) as O2.
    { apply (occurs_after _ _ _ _ _ _ _ P1 Hd).
      exists mid, (attrs +:+ ">" +:+ rest). reflexivity. }
    destruct (Py.partition textarea_open a) as [[m b] |] eqn:P2.
    2: { apply partition_none in P2. contradiction. }
    assert (occurs ">" b) as O3.
    { destruct (partition_after _ _ _ _ _ _ P1 Hd) as (u & v & _ & _ & Ha).
      rewrite <- append_assoc in Ha.
      apply (occurs_after _ _ _ _ _ _ _ P2 Ha).
      exists attrs, rest. reflexivity. }
    destruct (Py.partition ">" b) as [[t c] |] eqn:P3.
    2: { apply partition_none in P3. contradiction. }
    eexists. reflexivity.
Qed.

(** X17. [handle_chunked] raises [NotImplementedError] exactly when the
    response does not contain [<h3>JSON</h3>], later [<textarea], later
    [>]; it has then written the response to the error stream and has left
    the files and the miner as they were. *)
Theorem chunked_raises self data_str st self' st' o :
  UserAgentMiner.handle_chunked self data_str st = (self', st', o) ->
  (o = UserAgentMiner.NotImplementedError
   <-> ~ exists pre mid attrs rest,
           data_str = pre +:+ json_heading +:+ mid +:+ textarea_open
                        +:+ attrs +:+ ">" +:+ rest)
  /\ (o = UserAgentMiner.NotImplementedError ->
      self' = self
      /\ UserAgentMiner.files st' = UserAgentMiner.files st
      /\ UserAgentMiner.stderr st'
         = (UserAgentMiner.stderr st
            ++ ["Unfamiliar response data: " +:+ data_str])%list).
Proof.
  unfold UserAgentMiner.handle_chunked.
  pose proof (pick_returns_iff data_str) as Hp.
  destruct (UserAgentMiner.pick data_str) as [json_str | e].
  - intros H. injection H as <- <- <-. split.
    + split; [discriminate |]. intros Hn. destruct Hn. apply Hp.
      eexists. reflexivity.
    + discriminate.
  - intros H. injection H as <- <- <-. split.
    + split; [| reflexivity]. intros _ Hs. apply Hp in Hs as [x Hx].
      discriminate.
    + intros _. repeat split; reflexivity.
Qed.

Lemma chunked_raises_witness :
  UserAgentMiner.handle_chunked
    {| UserAgentMiner.filename := "user-agent.json";
       UserAgentMiner.items := [] |}
    "<h3>JSON</h3><p>moved</p>"
    {| UserAgentMiner.files := {[ "user-agent.json" := "[]" ]};
       UserAgentMiner.stderr := [] |}
  = ({| UserAgentMiner.filename := "user-agent.json";
        UserAgentMiner.items := [] |},
     {| UserAgentMiner.files := {[ "user-agent.json" := "[]" ]};
        UserAgentMiner.stderr :=
          ["Unfamiliar response data: <h3>JSON</h3><p>moved</p>"] |},
     UserAgentMiner.NotImplementedError)
  /\ ~ exists pre mid attrs rest,
         "<h3>JSON</h3><p>moved</p>"
         = pre +:+ json_heading +:+ mid +:+ textarea_open
             +:+ attrs +:+ ">" +:+ rest.
Proof.
  assert (UserAgentMiner.handle_chunked
            {| UserAgentMiner.filename := "user-agent.json";
               UserAgentMiner.items := [] |}
            "<h3>JSON</h3><p>moved</p>"
            {| UserAgentMiner.files := {[ "user-agent.json" := "[]" ]};
               UserAgentMiner.stderr := [] |}
          = ({| UserAgentMiner.filename := "user-agent.json";
                UserAgentMiner.items := [] |},
             {| UserAgentMiner.files := {[ "user-agent.json" := "[]" ]};
                UserAgentMiner.stderr :=
                  ["Unfamiliar response data: <h3>JSON</h3><p>moved</p>"] |},
             UserAgentMiner.NotImplementedError)) as E by reflexivity.
  split; [exact E |].
  apply (chunked_raises _ _ _ _ _ _ E). reflexivity.
Defined.

(** X18. From a response in which [<h3>JSON</h3>], then [<textarea], then
    [>] and then [</textarea>] first occur where the page puts them,
    [handle_chunked] takes exactly the text between the [>] and the
    [</textarea>], writes it to the miner's file and appends it to the
    miner. *)
Theorem chunked_round_trip self st pre mid attrs json_str post :
  first_at json_heading pre ->
  first_at textarea_open mid ->
  first_at ">" attrs ->
  first_at textarea_close json_str ->
  UserAgentMiner.handle_chunked self
    (pre +:+ json_heading +:+ mid +:+ textarea_open +:+ attrs +:+ ">"
       +:+ json_str +:+ textarea_close +:+ post) st
  = (UserAgentMiner.append json_str self,
     UserAgentMiner.write self json_str st,
     UserAgentMiner.Returned).
Proof.
  intros H1 H2 H3 H4. unfold UserAgentMiner.handle_chunked.
  rewrite pick_eq.
  rewrite (partition_first_at _ _ _ H1), (partition_first_at _ _ _ H2),
    (partition_first_at _ _ _ H3).
  unfold before. rewrite (partition_first_at _ _ _ H4). reflexivity.
Qed.

Lemma chunked_round_trip_witness :
  first_at json_heading
    "<div><h3>CSV</h3><textarea>a,b</textarea></div><div>"
  /\ first_at textarea_open ""
  /\ first_at ">" " class=x"
  /\ first_at textarea_close "[{}]"
  /\ UserAgentMiner.handle_chunked
       {| UserAgentMiner.filename := "user-agent.json";
          UserAgentMiner.items := [] |}
       chunked_page
       {| UserAgentMiner.files := ∅; UserAgentMiner.stderr := [] |}
     = ({| UserAgentMiner.filename := "user-agent.json";
           UserAgentMiner.items := ["[{}]"] |},
        {| UserAgentMiner.files := <["user-agent.json" := "[{}]"]> ∅;
           UserAgentMiner.stderr := [] |},
        UserAgentMiner.Returned).
Proof.
  assert (first_at json_heading
            "<div><h3>CSV</h3><textarea>a,b</textarea></div><div>") as H1
    by (apply first_at_partition; reflexivity).
  assert (first_at textarea_open "") as H2
    by (apply first_at_partition; reflexivity).
  assert (first_at ">" " class=x") as H3
    by (apply first_at_partition; reflexivity).
  assert (first_at textarea_close "[{}]") as H4
    by (apply first_at_partition; reflexivity).
  repeat (split; [assumption |]).
  exact (chunked_round_trip
           {| UserAgentMiner.filename := "user-agent.json";
              UserAgentMiner.items := [] |}
           {| UserAgentMiner.files := ∅; UserAgentMiner.stderr := [] |}
           _ _ _ _ "</div>" H1 H2 H3 H4).
Defined.

(** ** Reading back a version *)

Lemma digits_uint d acc count prev :
  prev = true \/ d <> Decimal.Nil ->
  Py.digits acc count prev (NilEmpty.string_of_uint d)
  = Some (uint_value acc d,
          (count + String.length (NilEmpty.string_of_uint d))%nat).
Proof.
  revert acc count prev.
  induction d as [|d IH|d IH|d IH|d IH|d IH|d IH|d IH|d IH|d IH|d IH];
    intros acc count prev H.
  1: { destruct H as [-> | H]; [| contradiction]. simpl.
       rewrite Nat.add_0_r. reflexivity. }
  all: cbn [NilEmpty.string_of_uint uint_value String.length];
    rewrite Nat.add_succ_r; rewrite <- (IH _ (S count) true (or_introl eq_refl));
    reflexivity.
Qed.

Lemma uint_value_pos d p :
  uint_value (Z.pos p) d = Z.pos (Pos.of_uint_acc d p).
Proof.
  revert p.
  induction d as [|d IH|d IH|d IH|d IH|d IH|d IH|d IH|d IH|d IH|d IH];
    intros p; [reflexivity | ..];
    cbn [uint_value Pos.of_uint_acc]; rewrite <- IH; f_equal; lia.
Qed.

Lemma uint_value_zero d : uint_value 0 d = Z.of_uint d.
Proof.
  unfold Z.of_uint.
  induction d as [|d IH|d IH|d IH|d IH|d IH|d IH|d IH|d IH|d IH|d IH];
    [reflexivity | exact IH | ..];
    cbn [uint_value Pos.of_uint]; apply (uint_value_pos d).
Qed.

Lemma digit_first d :
  d <> Decimal.Nil ->
  exists c s,
    NilEmpty.string_of_uint d = String c s
    /\ Py.is_space c = false /\ c <> "+"%char /\ c <> "-"%char.
Proof.
  destruct d; [contradiction | ..]; intros _; eexists _, _;
    (split; [reflexivity |]); repeat split; discriminate.
Qed.

Lemma int_unsigned c s :
  Py.is_space c = false -> c <> "+"%char -> c <> "-"%char ->
  Py.int (String c s)
  = match Py.digits 0 0 false (String c s) with
    | Some (v, count) =>
        if (count <=? Py.int_max_str_digits)%nat then Ok (1 * v)
        else Raise ValueError
    | None => Raise ValueError
    end.
Proof.
  intros Hs Hp Hm. unfold Py.int. cbn [Py.skip_spaces]. rewrite Hs.
  destruct c as [[] [] [] [] [] [] [] []];
    first [reflexivity | destruct Hp; reflexivity | destruct Hm; reflexivity].
Qed.

Lemma int_of_uint d :
  d <> Decimal.Nil ->
  (String.length (NilEmpty.string_of_uint d) <= Py.int_max_str_digits)%nat ->
  Py.int (NilEmpty.string_of_uint d) = Ok (Z.of_uint d)
  /\ Py.int (String "-" (NilEmpty.string_of_uint d)) = Ok (- Z.of_uint d).
Proof.
  intros Hd Hl.
  pose proof (digits_uint d 0 0 false (or_intror Hd)) as Hg.
  rewrite uint_value_zero in Hg. cbn [Nat.add] in Hg.
  destruct (digit_first d Hd) as (c & s & Hc & Hs & Hp & Hm).
  split.
  - rewrite Hc in *. rewrite (int_unsigned c s Hs Hp Hm), Hg.
    apply Nat.leb_le in Hl. rewrite Hl. f_equal; lia.
  - unfold Py.int. cbn [Py.skip_spaces].
    change (Py.is_space "-") with false. cbv iota. rewrite Hg.
    apply Nat.leb_le in Hl. rewrite Hl. f_equal; lia.
Qed.

(** [int] reads back what [str] writes, up to the limit on digits. *)
Lemma int_str n :
  (String.length (Py.str (Z.abs n)) <= Py.int_max_str_digits)%nat ->
  Py.int (Py.str n) = Ok n.
Proof.
  intros Hl. destruct n as [| p | p]; [reflexivity | |].
  - change (Z.abs (Z.pos p)) with (Z.pos p) in Hl. unfold Py.str in *.
    cbn [Z.to_int NilZero.string_of_int] in *.
    unfold NilZero.string_of_uint in *.
    pose proof (DecimalPos.Unsigned.to_uint_nonnil p) as Hn.
    pose proof (DecimalZ.of_to (Z.pos p)) as Hv.
    cbn [Z.to_int Z.of_int] in Hv.
    destruct (Pos.to_uint p) eqn:Hu; [contradiction | ..];
      cbv beta iota in Hl |- *;
      destruct (int_of_uint _ Hn Hl) as [H1 _]; rewrite Hv in H1; exact H1.
  - change (Z.abs (Z.neg p)) with (Z.pos p) in Hl. unfold Py.str in *.
    cbn [Z.to_int NilZero.string_of_int] in *.
    unfold NilZero.string_of_uint in *.
    pose proof (DecimalPos.Unsigned.to_uint_nonnil p) as Hn.
    pose proof (DecimalZ.of_to (Z.pos p)) as Hv.
    cbn [Z.to_int Z.of_int] in Hv.
    destruct (Pos.to_uint p) eqn:Hu; [contradiction | ..];
      cbv beta iota in Hl |- *;
      destruct (int_of_uint _ Hn Hl) as [_ H2]; rewrite Hv in H2; exact H2.
Qed.

Lemma drop_length_append p r : Py.drop (String.length p) (p +:+ r) = r.
Proof.
  induction p as [|c p IH]; [destruct r; reflexivity |].
  rewrite append_cons. exact IH.
Qed.

Lemma drop_add a b s : Py.drop (a + b) s = Py.drop b (Py.drop a s).
Proof.
  revert s. induction a as [|a IH]; intros s; [reflexivity |].
  destruct s as [|c s]; [destruct b; reflexivity | apply IH].
Qed.

Lemma occurs_single a c s :
  occurs (String a "") (String c s) -> a = c \/ occurs (String a "") s.
Proof.
  intros (pre & post & H). destruct pre as [|d pre].
  - injection H as -> _. left. reflexivity.
  - rewrite append_cons in H. injection H as _ H.
    right. exists pre, post. exact H.
Qed.

Lemma first_at_single c pre :
  ~ occurs (String c "") pre -> first_at (String c "") pre.
Proof.
  intros Hn u v H. destruct v as [|d v]; [reflexivity |]. destruct Hn.
  symmetry in H.
  destruct (append_split u (String c "" +:+ String d v) pre (String c "") H)
    as (t & -> & Ht).
  { apply (f_equal String.length) in H. rewrite !append_length in H.
    simpl in H. lia. }
  destruct t as [|e t]; [discriminate Ht |].
  injection Ht as <- _. exists u, t. reflexivity.
Qed.

Lemma uint_no_dot d : ~ occurs "." (NilEmpty.string_of_uint d).
Proof.
  induction d; cbn [NilEmpty.string_of_uint];
    [apply nonempty_token_occurs | ..];
    intros H; apply occurs_single in H as [H | H];
    first [discriminate H | exact (IHd H)].
Qed.

Lemma str_no_dot n : ~ occurs "." (Py.str n).
Proof.
  unfold Py.str. destruct n as [| p | p]; cbn [Z.to_int NilZero.string_of_int].
  - intros H. apply contains_occurs in H. discriminate H.
  - unfold NilZero.string_of_uint. destruct (Pos.to_uint p) eqn:E;
      [intros H; apply contains_occurs in H; discriminate H | ..];
      apply uint_no_dot.
  - intros H. apply occurs_single in H as [H | H]; [discriminate H |].
    revert H. unfold NilZero.string_of_uint. destruct (Pos.to_uint p) eqn:E;
      [intros H; apply contains_occurs in H; discriminate H | ..];
      apply uint_no_dot.
Qed.

(** X19. The version field reads back what [str] writes: when the first
    occurrence of a keyword is followed by one separator character, then
    the decimal text of an integer [n], then the end of the string or a
    ["."], the field is [n]. *)
Theorem version_round_trip ua k pre c n tail :
  ua = pre +:+ k +:+ String c (Py.str n +:+ tail) ->
  Py.find k ua = Py.len pre ->
  tail = "" \/ (exists rest, tail = "." +:+ rest) ->
  (String.length (Py.str (Z.abs n)) <= Py.int_max_str_digits)%nat ->
  field ua k = Ok n.
Proof.
  intros Hua Hf Ht Hl. unfold field, Browser.version_at. rewrite Hf.
  assert (Py.slice_from (Py.len pre + Py.len k + 1) ua = Py.str n +:+ tail)
    as ->.
  { unfold Py.slice_from, Py.len.
    destruct (Z.ltb_spec (Z.of_nat (String.length pre)
                          + Z.of_nat (String.length k) + 1) 0); [lia |].
    replace (Z.to_nat (Z.of_nat (String.length pre)
                       + Z.of_nat (String.length k) + 1))
      with (String.length pre + (String.length k + 1))%nat by lia.
    rewrite Hua, !drop_add, !drop_length_append. reflexivity. }
  rewrite split1_index0. cbn [rbind].
  assert (before "." (Py.str n +:+ tail) = Py.str n) as ->.
  { unfold before. destruct Ht as [-> | [rest ->]].
    - rewrite append_nil_r.
      destruct (Py.partition "." (Py.str n)) as [[a b] |] eqn:P;
        [| reflexivity].
      destruct (str_no_dot n). apply partition_some. eauto.
    - rewrite (partition_first_at "." (Py.str n) rest); [reflexivity |].
      apply first_at_single, str_no_dot. }
  apply int_str, Hl.
Qed.

Lemma version_round_trip_witness :
  edge_only_ua
  = "Mozilla/5.0 (Windows NT 10.0; Win64; x64) " +:+ "Edg"
      +:+ String "/" (Py.str 119 +:+ ".0.2151.58")
  /\ Py.find "Edg" edge_only_ua
     = Py.len "Mozilla/5.0 (Windows NT 10.0; Win64; x64) "
  /\ field edge_only_ua "Edg" = Ok 119.
Proof.
  assert (edge_only_ua
          = "Mozilla/5.0 (Windows NT 10.0; Win64; x64) " +:+ "Edg"
              +:+ String "/" (Py.str 119 +:+ ".0.2151.58")) as H1
    by reflexivity.
  assert (Py.find "Edg" edge_only_ua
          = Py.len "Mozilla/5.0 (Windows NT 10.0; Win64; x64) ") as H2
    by reflexivity.
  split; [exact H1 |]. split; [exact H2 |].
  apply (version_round_trip _ _ _ _ _ _ H1 H2).
  - right. eexists. reflexivity.
  - vm_compute. lia.
Defined.
